(** * Conversation orchestration of the chatbot backend (backend/server.py)

    A shallow embedding of the message pipeline of the FastAPI backend:
    the handlers [send_message], [get_conversation_messages] and
    [delete_chatbot], the MongoDB collections they work on, and the
    outside world they talk to (identifier source, wall clock, storage
    driver, language-model client).

    Handlers are written in a state-and-exception monad over [World]; an
    exception keeps the state reached when it was raised, as in Python.
    Everything the code cannot decide by itself is read from an [Env]
    record with one field per call site. *)

From Stdlib Require Import String Ascii List ZArith Lia Bool Sorted Permutation DecimalString.
Import ListNotations.
Local Open Scope string_scope.
Local Open Scope list_scope.

(** ** Data model (the pydantic models and the stored documents) *)

(** [datetime] values are counted in microseconds on the wall clock. *)
Definition datetime := Z.

Module User.
Record t := mk { id : string; username : string; created_at : datetime }.
End User.

Module Chatbot.
Record t := mk {
  id : string;
  user_id : string;
  name : string;
  description : string;
  introduction : string;
  is_censored : bool;
  created_at : datetime;
  creator_username : string
}.
End Chatbot.

Module Conversation.
Record t := mk {
  id : string;
  user_id : string;
  chatbot_id : string;
  created_at : datetime
}.
End Conversation.

Module Message.
Record t := mk {
  id : string;
  conversation_id : string;
  sender_type : string;  (* 'user' or 'chatbot' *)
  content : string;
  timestamp : datetime
}.
End Message.

Module ChatMessage.
Record t := mk { message : string }.
End ChatMessage.

(** ** Exceptions *)

Inductive Exception : Type :=
| HTTPException (status_code : nat) (detail : string)
    (* raised by the handlers themselves *)
| StorageError (reason : string)
    (* raised by the database driver inside [insert_one] *)
| GenerationError (reason : string).
    (* raised by the language-model client inside [chat.send_message] *)

(** [str(e)]: the driver's and the client's exceptions print their
    reason; an [HTTPException] prints as "<status>: <detail>" (it is never
    raised inside the [try] block of [send_message]). *)
Definition str (e : Exception) : string :=
  match e with
  | HTTPException status_code detail =>
      (NilZero.string_of_uint (Nat.to_uint status_code) ++ ": " ++ detail)%string
  | StorageError reason => reason
  | GenerationError reason => reason
  end.

Inductive Result (A : Type) : Type :=
| Ok (a : A)
| Raise (e : Exception).
Arguments Ok {A} a.
Arguments Raise {A} e.

(** ** The world: collections, clock and a log of outside effects *)

Inductive Event : Type :=
| EvInsertMessage (doc : Message.t) (fault : option string)
    (* messages_collection.insert_one(doc); [Some r]: the driver raised *)
| EvLlmSend (system_message session_id text : string) (reply : string + string).
    (* LlmChat(session_id, system_message).send_message(UserMessage(text)) *)

Record World := mkWorld {
  chatbots_collection : list Chatbot.t;
  conversations_collection : list Conversation.t;
  messages_collection : list Message.t;   (* in insertion order *)
  clock : datetime;                       (* the last reading of the wall clock *)
  trace : list Event                      (* oldest first *)
}.

Definition set_chatbots (l : list Chatbot.t) (w : World) : World :=
  mkWorld l (conversations_collection w) (messages_collection w) (clock w) (trace w).
Definition set_conversations (l : list Conversation.t) (w : World) : World :=
  mkWorld (chatbots_collection w) l (messages_collection w) (clock w) (trace w).
Definition set_messages (l : list Message.t) (w : World) : World :=
  mkWorld (chatbots_collection w) (conversations_collection w) l (clock w) (trace w).
Definition set_clock (t : datetime) (w : World) : World :=
  mkWorld (chatbots_collection w) (conversations_collection w) (messages_collection w) t (trace w).
Definition log (ev : Event) (w : World) : World :=
  mkWorld (chatbots_collection w) (conversations_collection w) (messages_collection w)
          (clock w) (trace w ++ [ev]).

(** What one request meets outside the program, one field per call site of
    [send_message]. *)
Record Env := mkEnv {
  uuid_user : string;          (* uuid.uuid4(), line 295 *)
  uuid_bot : string;           (* uuid.uuid4(), line 323 *)
  uuid_fallback : string;      (* uuid.uuid4(), line 340 *)
  wait_user : nat;             (* time gone by when utcnow() is read, line 301 *)
  wait_bot : nat;              (* ... since the previous reading, line 329 *)
  wait_fallback : nat;         (* ... since the previous reading, line 346 *)
  user_write : option string;  (* insert_one of line 303: None, or the driver's error *)
  llm : string -> string -> string -> string + string;
                               (* the client of lines 313-320, from
                                  system_message, session_id and text:
                                  inl the response (a str), or inr the
                                  text of the exception it raised *)
  bot_write : option string;   (* insert_one of line 331 *)
  fallback_write : option string  (* insert_one of line 348 *)
}.

(** ** The monad *)

Definition M (A : Type) : Type := World -> Result A * World.

Definition ret {A} (a : A) : M A := fun w => (Ok a, w).
Definition raise {A} (e : Exception) : M A := fun w => (Raise e, w).
Definition bind {A B} (m : M A) (k : A -> M B) : M B :=
  fun w => match m w with
           | (Ok a, w') => k a w'
           | (Raise e, w') => (Raise e, w')
           end.
(** [try: body except Exception as e: handler]: the handler runs in the
    state the body had reached.  Every [Exception] of this model is an
    instance of Python's Exception; what is not (the cancellation of the
    request, asyncio.CancelledError) would pass the handler and is not
    modelled. *)
Definition try_except {A} (body : M A) (handler : Exception -> M A) : M A :=
  fun w => match body w with
           | (Ok a, w') => (Ok a, w')
           | (Raise e, w') => handler e w'
           end.

Declare Scope monad_scope.
Delimit Scope monad_scope with monad.
Notation "x <- m ;; k" := (bind m (fun x => k))
  (at level 61, m at next level, right associativity) : monad_scope.
Notation "m ;; k" := (bind m (fun _ => k))
  (at level 61, right associativity) : monad_scope.
Local Open Scope monad_scope.

(** ** Primitive effects *)

(** [datetime.utcnow()]: the clock has moved on by [elapsed] since it was
    last read; wall-clock time does not run backwards. *)
Definition utcnow (elapsed : nat) : M datetime :=
  fun w => let t := (clock w + Z.of_nat elapsed)%Z in (Ok t, set_clock t w).

(** [collection.find_one({"id": key})]: the first stored document with
    that id, or None.  The lookups are taken to answer: an error of the
    driver on a read is not modelled. *)
Definition conversation_by_id (key : string) (w : World) : option Conversation.t :=
  find (fun c => Conversation.id c =? key) (conversations_collection w).
Definition chatbot_by_id (key : string) (w : World) : option Chatbot.t :=
  find (fun c => Chatbot.id c =? key) (chatbots_collection w).

Definition find_conversation (key : string) : M (option Conversation.t) :=
  fun w => (Ok (conversation_by_id key w), w).
Definition find_chatbot (key : string) : M (option Chatbot.t) :=
  fun w => (Ok (chatbot_by_id key w), w).

(** [messages_collection.insert_one(doc)]: appends the document, or
    raises and stores nothing. *)
Definition insert_one (fault : option string) (doc : Message.t) : M unit :=
  fun w => match fault with
           | None =>
               (Ok tt, log (EvInsertMessage doc None)
                           (set_messages (messages_collection w ++ [doc]) w))
           | Some reason =>
               (Raise (StorageError reason), log (EvInsertMessage doc (Some reason)) w)
           end.

(** [LlmChat(api_key, session_id, system_message).with_model(...)
    .send_message(UserMessage(text))]. *)
Definition chat_send_message (oracle : string -> string -> string -> string + string)
    (system_message session_id text : string) : M string :=
  fun w => let reply := oracle system_message session_id text in
           let w' := log (EvLlmSend system_message session_id text reply) w in
           match reply with
           | inl response => (Ok response, w')
           | inr reason => (Raise (GenerationError reason), w')
           end.

(** ** send_message (POST /api/chat/{conversation_id}/message) *)

(** Lines 307-311: the system message built from the chatbot document. *)
Definition system_message_of (chatbot : Chatbot.t) : string :=
  let system_message :=
    (Chatbot.introduction chatbot ++ " You are " ++ Chatbot.name chatbot ++ ". "
       ++ Chatbot.description chatbot)%string in
  if negb (Chatbot.is_censored chatbot)
  then (system_message ++ " You can engage in roleplay and adult content as requested.")%string
  else (system_message ++ " Keep your responses appropriate and family-friendly.")%string.

(** Line 345: the content of the fallback message. *)
Definition fallback_content (e : Exception) : string :=
  ("I'm sorry, I'm having trouble responding right now. Please try again later. ("
     ++ substring 0 50 (str e) ++ "...)")%string.

Definition send_message (env : Env) (conversation_id : string)
    (message_data : ChatMessage.t) (current_user : User.t)
  : M (Message.t * Message.t) :=
  conversation <- find_conversation conversation_id ;;
  match conversation with
  | None => raise (HTTPException 404 "Conversation not found")
  | Some conversation =>
    if negb (Conversation.user_id conversation =? User.id current_user)
    then raise (HTTPException 403 "Not authorized")
    else
      chatbot <- find_chatbot (Conversation.chatbot_id conversation) ;;
      match chatbot with
      | None => raise (HTTPException 404 "Chatbot not found")
      | Some chatbot =>
        (* Save user message *)
        let user_message_id := uuid_user env in
        now <- utcnow (wait_user env) ;;
        let user_message_doc :=
          Message.mk user_message_id conversation_id "user"
                     (ChatMessage.message message_data) now in
        insert_one (user_write env) user_message_doc ;;
        try_except
          (let system_message := system_message_of chatbot in
           response <- chat_send_message (llm env) system_message conversation_id
                         (ChatMessage.message message_data) ;;
           (* Save chatbot response *)
           let bot_message_id := uuid_bot env in
           now <- utcnow (wait_bot env) ;;
           let bot_message_doc :=
             Message.mk bot_message_id conversation_id "chatbot" response now in
           insert_one (bot_write env) bot_message_doc ;;
           ret (user_message_doc, bot_message_doc))
          (fun e =>
           (* If AI fails, return a fallback response *)
           let bot_message_id := uuid_fallback env in
           let content := fallback_content e in
           now <- utcnow (wait_fallback env) ;;
           let bot_message_doc :=
             Message.mk bot_message_id conversation_id "chatbot" content now in
           insert_one (fallback_write env) bot_message_doc ;;
           ret (user_message_doc, bot_message_doc))
      end
  end.

(** ** get_conversation_messages (GET /api/chat/{conversation_id}/messages) *)

(** [cursor.sort("timestamp", 1)]: ascending by timestamp.  The database
    promises no order among documents with equal timestamps; this sort
    keeps their stored order, which is one of the orders it may return. *)
Fixpoint insert_by_timestamp (m : Message.t) (l : list Message.t) : list Message.t :=
  match l with
  | [] => [m]
  | x :: xs =>
      if (Message.timestamp m <=? Message.timestamp x)%Z
      then m :: l
      else x :: insert_by_timestamp m xs
  end.

Definition sort_by_timestamp (l : list Message.t) : list Message.t :=
  fold_right insert_by_timestamp [] l.

(** [messages_collection.find({"conversation_id": key})]. *)
Definition find_messages (key : string) (l : list Message.t) : list Message.t :=
  filter (fun m => Message.conversation_id m =? key) l.

Definition get_conversation_messages (conversation_id : string) (current_user : User.t)
  : M (list Message.t) :=
  conversation <- find_conversation conversation_id ;;
  match conversation with
  | None => raise (HTTPException 404 "Conversation not found")
  | Some conversation =>
    if negb (Conversation.user_id conversation =? User.id current_user)
    then raise (HTTPException 403 "Not authorized")
    else
      fun w => (Ok (sort_by_timestamp (find_messages conversation_id (messages_collection w))), w)
  end.

(** ** delete_chatbot (DELETE /api/chatbots/{chatbot_id}) *)

(** [collection.delete_one(filter)]: removes the first matching document. *)
Fixpoint delete_one {D} (p : D -> bool) (l : list D) : list D :=
  match l with
  | [] => []
  | x :: xs => if p x then xs else x :: delete_one p xs
  end.

(** [collection.delete_many(filter)]: removes every matching document. *)
Definition delete_many {D} (p : D -> bool) (l : list D) : list D :=
  filter (fun x => negb (p x)) l.

(** The filter [{"conversation_id": {"$in": ids}}]. *)
Definition conversation_id_in (ids : list string) (m : Message.t) : bool :=
  existsb (fun i => Message.conversation_id m =? i) ids.

Definition delete_chatbot (chatbot_id : string) (current_user : User.t) : M string :=
  chatbot <- find_chatbot chatbot_id ;;
  match chatbot with
  | None => raise (HTTPException 404 "Chatbot not found")
  | Some chatbot =>
    if negb (Chatbot.user_id chatbot =? User.id current_user)
    then raise (HTTPException 403 "Not authorized to delete this chatbot")
    else
      (fun w => (Ok tt, set_chatbots
                   (delete_one (fun c => Chatbot.id c =? chatbot_id) (chatbots_collection w)) w)) ;;
      (fun w => (Ok tt, set_conversations
                   (delete_many (fun c => Conversation.chatbot_id c =? chatbot_id)
                      (conversations_collection w)) w)) ;;
      (fun w => (Ok tt, set_messages
                   (delete_many (conversation_id_in []) (messages_collection w)) w)) ;;
           (* Clean up messages later *)
      ret "Chatbot deleted successfully"
  end.

(** ** Sequences of requests *)






Definition timestamp_le (a b : Message.t) : Prop :=
  (Message.timestamp a <= Message.timestamp b)%Z.




(** ** The system prompt as the specification words it *)

(** The specification's composition: introductionText + "You are " + name
    + ". " + description, then the clause chosen by isCensored. *)
Definition spec_system_prompt (clause : bool -> string) (persona : Chatbot.t) : string :=
  (Chatbot.introduction persona ++ "You are " ++ Chatbot.name persona ++ ". "
     ++ Chatbot.description persona ++ clause (Chatbot.is_censored persona))%string.

(** The two content-policy clauses of lines 309 and 311. *)
Definition policy_clause (is_censored : bool) : string :=
  if is_censored
  then " Keep your responses appropriate and family-friendly."
  else " You can engage in roleplay and adult content as requested.".

Definition with_is_censored (b : bool) (c : Chatbot.t) : Chatbot.t :=
  Chatbot.mk (Chatbot.id c) (Chatbot.user_id c) (Chatbot.name c) (Chatbot.description c)
             (Chatbot.introduction c) b (Chatbot.created_at c) (Chatbot.creator_username c).

(** The sender types the handlers write (the comment of line 97). *)
Definition written_sender_type (m : Message.t) : Prop :=
  Message.sender_type m = "user" \/ Message.sender_type m = "chatbot".

(** The fixed opening of the fallback message (line 345). *)
Definition fallback_opening : string :=
  "I'm sorry, I'm having trouble responding right now. Please try again later. (".

(** ** Sample data *)

Module Sample.

Local Open Scope Z_scope.

Definition ada : User.t := User.mk "u-1" "ada" 0.
Definition eve : User.t := User.mk "u-2" "eve" 1.

Definition nova : Chatbot.t :=
  Chatbot.mk "b-1" "u-1" "Nova" "a helpful guide" "Hi, I'm Nova." true 2 "ada".

Definition chat : Conversation.t := Conversation.mk "c-1" "u-1" "b-1" 3.

Definition hello : ChatMessage.t := ChatMessage.mk "Hello".

(** A fresh conversation of ada with Nova. *)
Definition fresh : World := mkWorld [nova] [chat] [] 10 [].

(** The same conversation after its chatbot document has gone. *)
Definition orphaned : World := mkWorld [] [chat] [] 10 [].

(** A conversation that already holds one turn. *)
Definition talked : World :=
  mkWorld [nova] [chat]
          [Message.mk "m-1" "c-1" "user" "Hello" 11;
           Message.mk "m-2" "c-1" "chatbot" "Hi there" 13]
          13 [].

Definition healthy : Env :=
  mkEnv "m-1" "m-2" "m-3" 1%nat 2%nat 3%nat None (fun _ _ _ => inl "Hi there") None None.

Definition long_reason : string :=
  "Traceback (most recent call last): provider timed out after 30 seconds".

(** The provider times out; storage works. *)
Definition gateway_down : Env :=
  mkEnv "m-1" "m-2" "m-3" 1%nat 2%nat 3%nat None (fun _ _ _ => inr long_reason) None None.

(** The provider times out and the fallback write fails too. *)
Definition gateway_and_store_down : Env :=
  mkEnv "m-1" "m-2" "m-3" 1%nat 2%nat 3%nat None (fun _ _ _ => inr long_reason) None
        (Some "connection reset").

(** The very first write fails. *)
Definition store_down : Env :=
  mkEnv "m-1" "m-2" "m-3" 1%nat 2%nat 3%nat (Some "connection reset")
        (fun _ _ _ => inl "Hi there") None None.

(** The provider answers, the write of its answer fails, the next write
    goes through. *)
Definition bot_write_fails : Env :=
  mkEnv "m-1" "m-2" "m-3" 1%nat 2%nat 3%nat None (fun _ _ _ => inl "Hi there")
        (Some "connection reset") None.

(** The provider answers and both later writes fail. *)
Definition bot_writes_fail : Env :=
  mkEnv "m-1" "m-2" "m-3" 1%nat 2%nat 3%nat None (fun _ _ _ => inl "Hi there")
        (Some "connection reset") (Some "still down").


End Sample.

(** * The other handlers of server.py *)

(** ** Request models *)

Module ChatbotCreate.
Record t := mk {
  name : string;
  description : string;
  introduction : string;
  is_censored : bool
}.
End ChatbotCreate.

(** The fields a request sets, with their values ([dict(exclude_unset=True)]);
    [None]: the request leaves the field out.  A request may also set a
    field to null: the code then writes the null and fails when it builds
    the Chatbot of line 245 from the stored document.  Such requests are
    outside this model, whose stored chatbots have no null field. *)
Module ChatbotUpdate.
Record t := mk {
  name : option string;
  description : option string;
  introduction : option string;
  is_censored : option bool
}.
End ChatbotUpdate.

(** What a handler that creates one document meets outside the program. *)
Record Outside := mkOutside {
  out_uuid : string;          (* uuid.uuid4() *)
  out_wait : nat;             (* time gone by when utcnow() is read *)
  out_write : option string   (* the insert: None, or the driver's error *)
}.

(** ** Chatbots *)

(** [chatbots_collection.insert_one(doc)]. *)
Definition insert_chatbot (fault : option string) (doc : Chatbot.t) : M unit :=
  fun w => match fault with
           | None => (Ok tt, set_chatbots (chatbots_collection w ++ [doc]) w)
           | Some reason => (Raise (StorageError reason), w)
           end.

(** create_chatbot (POST /api/chatbots), lines 187-203. *)
Definition create_chatbot (out : Outside) (chatbot_data : ChatbotCreate.t)
    (current_user : User.t) : M Chatbot.t :=
  let chatbot_id := out_uuid out in
  now <- utcnow (out_wait out) ;;
  let chatbot_doc :=
    Chatbot.mk chatbot_id (User.id current_user)
               (ChatbotCreate.name chatbot_data)
               (ChatbotCreate.description chatbot_data)
               (ChatbotCreate.introduction chatbot_data)
               (ChatbotCreate.is_censored chatbot_data)
               now (User.username current_user) in
  insert_chatbot (out_write out) chatbot_doc ;;
  ret chatbot_doc.

(** [cursor.sort("created_at", -1)]: descending by key.  The database
    promises no order among documents with equal keys; this sort keeps
    their stored order, which is one of the orders it may return. *)
Fixpoint insert_desc {D} (key : D -> datetime) (x : D) (l : list D) : list D :=
  match l with
  | [] => [x]
  | y :: ys =>
      if (key y <=? key x)%Z then x :: l else y :: insert_desc key x ys
  end.

Definition sort_desc {D} (key : D -> datetime) (l : list D) : list D :=
  fold_right (insert_desc key) [] l.

(** The order of a descending sort: [a] may stand before [b]. *)
Definition newer_first {D} (key : D -> datetime) (a b : D) : Prop :=
  (key b <= key a)%Z.

(** get_all_chatbots (GET /api/chatbots), lines 205-211. *)
Definition get_all_chatbots : M (list Chatbot.t) :=
  fun w => (Ok (sort_desc Chatbot.created_at (chatbots_collection w)), w).

(** get_my_chatbots (GET /api/chatbots/my), lines 213-219. *)
Definition get_my_chatbots (current_user : User.t) : M (list Chatbot.t) :=
  fun w => (Ok (sort_desc Chatbot.created_at
                  (filter (fun c => Chatbot.user_id c =? User.id current_user)
                          (chatbots_collection w))), w).

(** get_chatbot (GET /api/chatbots/{chatbot_id}), lines 221-226. *)
Definition get_chatbot (chatbot_id : string) : M Chatbot.t :=
  chatbot <- find_chatbot chatbot_id ;;
  match chatbot with
  | None => raise (HTTPException 404 "Chatbot not found")
  | Some chatbot => ret chatbot
  end.

(** [if update_data:] the request sets at least one field. *)
Definition sets_a_field (u : ChatbotUpdate.t) : bool :=
  match ChatbotUpdate.name u, ChatbotUpdate.description u,
        ChatbotUpdate.introduction u, ChatbotUpdate.is_censored u with
  | None, None, None, None => false
  | _, _, _, _ => true
  end.

Definition or_keep {A} (new : option A) (old : A) : A :=
  match new with Some v => v | None => old end.

(** [{"$set": update_data}] on one document. *)
Definition set_fields (u : ChatbotUpdate.t) (c : Chatbot.t) : Chatbot.t :=
  Chatbot.mk (Chatbot.id c) (Chatbot.user_id c)
             (or_keep (ChatbotUpdate.name u) (Chatbot.name c))
             (or_keep (ChatbotUpdate.description u) (Chatbot.description c))
             (or_keep (ChatbotUpdate.introduction u) (Chatbot.introduction c))
             (or_keep (ChatbotUpdate.is_censored u) (Chatbot.is_censored c))
             (Chatbot.created_at c) (Chatbot.creator_username c).

(** [collection.update_one(filter, update)]: changes the first matching
    document. *)
Fixpoint update_one {D} (p : D -> bool) (f : D -> D) (l : list D) : list D :=
  match l with
  | [] => []
  | x :: xs => if p x then f x :: xs else x :: update_one p f xs
  end.

Definition update_one_chatbot (fault : option string) (key : string)
    (u : ChatbotUpdate.t) : M unit :=
  fun w => match fault with
           | None =>
               (Ok tt, set_chatbots
                         (update_one (fun c => Chatbot.id c =? key) (set_fields u)
                                     (chatbots_collection w)) w)
           | Some reason => (Raise (StorageError reason), w)
           end.

(** What the client is answered when an exception other than the three
    of [Exception] leaves a handler: building the Chatbot of line 245
    from None, should the second lookup find nothing. *)
Definition internal_server_error : Exception :=
  HTTPException 500 "Internal Server Error".

(** update_chatbot (PUT /api/chatbots/{chatbot_id}), lines 228-245;
    [write] is the outcome of the update_one of line 242. *)
Definition update_chatbot (write : option string) (chatbot_id : string)
    (chatbot_data : ChatbotUpdate.t) (current_user : User.t) : M Chatbot.t :=
  chatbot <- find_chatbot chatbot_id ;;
  match chatbot with
  | None => raise (HTTPException 404 "Chatbot not found")
  | Some chatbot =>
    if negb (Chatbot.user_id chatbot =? User.id current_user)
    then raise (HTTPException 403 "Not authorized to update this chatbot")
    else
      (if sets_a_field chatbot_data
       then update_one_chatbot write chatbot_id chatbot_data
       else ret tt) ;;
      updated_chatbot <- find_chatbot chatbot_id ;;
      match updated_chatbot with
      | Some updated_chatbot => ret updated_chatbot
      | None => raise internal_server_error
      end
  end.

(** ** Conversations *)

(** [conversations_collection.insert_one(doc)]. *)
Definition insert_conversation (fault : option string) (doc : Conversation.t) : M unit :=
  fun w => match fault with
           | None => (Ok tt, set_conversations (conversations_collection w ++ [doc]) w)
           | Some reason => (Raise (StorageError reason), w)
           end.

(** start_conversation (POST /api/chat/{chatbot_id}/start), lines 263-279. *)
Definition start_conversation (out : Outside) (chatbot_id : string)
    (current_user : User.t) : M Conversation.t :=
  chatbot <- find_chatbot chatbot_id ;;
  match chatbot with
  | None => raise (HTTPException 404 "Chatbot not found")
  | Some _ =>
    let conversation_id := out_uuid out in
    now <- utcnow (out_wait out) ;;
    let conversation_doc :=
      Conversation.mk conversation_id (User.id current_user) chatbot_id now in
    insert_conversation (out_write out) conversation_doc ;;
    ret conversation_doc
  end.

(** get_user_conversations (GET /api/conversations), lines 370-376. *)
Definition get_user_conversations (current_user : User.t) : M (list Conversation.t) :=
  fun w => (Ok (sort_desc Conversation.created_at
                  (filter (fun c => Conversation.user_id c =? User.id current_user)
                          (conversations_collection w))), w).

(** ** Accounts *)

Module UserDoc.
Record t := mk {
  id : string;
  username : string;
  password_hash : string;
  created_at : datetime
}.
End UserDoc.

(** [UserCreate] and [UserLogin] carry the same two fields. *)
Module Credentials.
Record t := mk { username : string; password : string }.
End Credentials.

(** The answer of register and login: access_token, token_type and the
    id and username under "user". *)
Module Session.
Record t := mk {
  access_token : string;
  token_type : string;
  user_id : string;
  user_username : string
}.
End Session.

(** The payload of a token: "sub" (absent in a foreign token) and "exp". *)
Record Payload := mkPayload { sub : option string; exp : datetime }.

(** The two libraries the account handlers call, as they are used here:
    [bcrypt.hash] with the salt it draws, [bcrypt.verify password hash],
    [jwt.encode] under the configured secret, and [jwt.decode] at a time
    of day ([None]: it raises a PyJWTError). *)
Record Library := mkLibrary {
  bcrypt_hash : string -> string -> string;
  bcrypt_verify : string -> string -> bool;
  jwt_encode : Payload -> string;
  jwt_decode : datetime -> string -> option Payload
}.

Record Accounts := mkAccounts {
  users_collection : list UserDoc.t;   (* in insertion order *)
  wall_clock : datetime                (* the last reading of the wall clock *)
}.

Definition user_by_username (key : string) (a : Accounts) : option UserDoc.t :=
  find (fun u => UserDoc.username u =? key) (users_collection a).

(** timedelta(hours=24), in microseconds. *)
Definition token_lifetime : Z := 86400000000.

(** One second, in microseconds: a token keeps its expiry in whole
    seconds, rounded down. *)
Definition one_second : Z := 1000000.

(** create_access_token, lines 102-107, for [data = {"sub": username}];
    [elapsed]: time gone by when utcnow() is read. *)
Definition create_access_token (lib : Library) (elapsed : nat) (username : string)
    (a : Accounts) : string * Accounts :=
  let now := (wall_clock a + Z.of_nat elapsed)%Z in
  let expire := (now + token_lifetime)%Z in
  (jwt_encode lib (mkPayload (Some username) expire),
   mkAccounts (users_collection a) now).

(** What a registration meets outside the program. *)
Record Signup := mkSignup {
  signup_salt : string;          (* drawn by bcrypt.hash, line 137 *)
  signup_uuid : string;          (* uuid.uuid4(), line 140 *)
  signup_wait : nat;             (* before utcnow() of line 145 *)
  signup_write : option string;  (* insert_one of line 148 *)
  signup_token_wait : nat        (* before utcnow() of line 104 *)
}.

(** register (POST /api/auth/register), lines 129-160. *)
Definition register (lib : Library) (env : Signup) (user_data : Credentials.t)
    (a : Accounts) : Result Session.t * Accounts :=
  match user_by_username (Credentials.username user_data) a with
  | Some _ => (Raise (HTTPException 400 "Username already exists"), a)
  | None =>
    let hashed_password :=
      bcrypt_hash lib (signup_salt env) (Credentials.password user_data) in
    let user_id := signup_uuid env in
    let now := (wall_clock a + Z.of_nat (signup_wait env))%Z in
    let user_doc :=
      UserDoc.mk user_id (Credentials.username user_data) hashed_password now in
    match signup_write env with
    | Some reason =>
        (Raise (StorageError reason), mkAccounts (users_collection a) now)
    | None =>
        let a1 := mkAccounts (users_collection a ++ [user_doc]) now in
        let (access_token, a2) :=
          create_access_token lib (signup_token_wait env)
                              (Credentials.username user_data) a1 in
        (Ok (Session.mk access_token "bearer" user_id
                        (Credentials.username user_data)), a2)
    end
  end.

(** login (POST /api/auth/login), lines 162-180. *)
Definition login (lib : Library) (token_wait : nat) (user_data : Credentials.t)
    (a : Accounts) : Result Session.t * Accounts :=
  match user_by_username (Credentials.username user_data) a with
  | None => (Raise (HTTPException 401 "Invalid credentials"), a)
  | Some user =>
    if negb (bcrypt_verify lib (Credentials.password user_data)
                           (UserDoc.password_hash user))
    then (Raise (HTTPException 401 "Invalid credentials"), a)
    else
      let (access_token, a1) :=
        create_access_token lib token_wait (Credentials.username user_data) a in
      (Ok (Session.mk access_token "bearer" (UserDoc.id user)
                      (UserDoc.username user)), a1)
  end.

(** get_current_user, lines 109-126; [elapsed]: time gone by when the
    token is decoded. *)
Definition get_current_user (lib : Library) (elapsed : nat) (credentials : string)
    (a : Accounts) : Result User.t * Accounts :=
  let now := (wall_clock a + Z.of_nat elapsed)%Z in
  let a1 := mkAccounts (users_collection a) now in
  match jwt_decode lib now credentials with
  | None => (Raise (HTTPException 401 "Invalid token"), a1)
  | Some payload =>
    match sub payload with
    | None => (Raise (HTTPException 401 "Invalid token"), a1)
    | Some username =>
      match user_by_username username a1 with
      | None => (Raise (HTTPException 401 "User not found"), a1)
      | Some user =>
          (Ok (User.mk (UserDoc.id user) (UserDoc.username user)
                       (UserDoc.created_at user)), a1)
      end
    end
  end.

(** ** Reading the log *)

Definition is_llm_send (ev : Event) : bool :=
  match ev with
  | EvLlmSend _ _ _ _ => true
  | EvInsertMessage _ _ => false
  end.

(** ** More sample data *)

Module Demo.

Local Open Scope Z_scope.

Definition sage : Chatbot.t :=
  Chatbot.mk "b-2" "u-2" "Sage" "a stern critic" "I am Sage." false 4 "eve".

(** eve talks to ada's chatbot, ada to eve's. *)
Definition chat2 : Conversation.t := Conversation.mk "c-2" "u-2" "b-1" 5.
Definition chat3 : Conversation.t := Conversation.mk "c-3" "u-1" "b-2" 6.

Definition busy : World :=
  mkWorld [Sample.nova; sage] [Sample.chat; chat2; chat3]
          [Message.mk "m-1" "c-1" "user" "Hello" 11;
           Message.mk "m-7" "c-2" "user" "Hi" 12;
           Message.mk "m-2" "c-1" "chatbot" "Hi there" 13;
           Message.mk "m-8" "c-2" "chatbot" "Hello eve" 14]
          20 [].

Definition new_bot : ChatbotCreate.t :=
  ChatbotCreate.mk "Iris" "a patient tutor" "Hello, I am Iris." true.

Definition arrives : Outside := mkOutside "n-1" 5%nat None.

Definition rename : ChatbotUpdate.t :=
  ChatbotUpdate.mk (Some "Nova II") None None (Some false).

Definition nothing : ChatbotUpdate.t := ChatbotUpdate.mk None None None None.

(** Stand-ins for the two libraries, to run the account handlers: the
    hash of a password is the password, a token is its subject. *)
Definition toy : Library :=
  mkLibrary (fun _ password => password)
            (fun password hash => String.eqb password hash)
            (fun payload => match sub payload with Some s => s | None => EmptyString end)
            (fun now token => Some (mkPayload (Some token) (now + 1))).

Definition registry : Accounts :=
  mkAccounts [UserDoc.mk "u-1" "ada" "lovelace" 0; UserDoc.mk "u-2" "eve" "apple" 1] 7.

Definition bob : Credentials.t := Credentials.mk "bob" "builder".

Definition signup : Signup := mkSignup "salt" "u-3" 2%nat None 1%nat.






(** A stand-in for the token library that keeps the expiry as PyJWT does:
    in whole seconds, rounded down, written in binary in front of the
    subject (lowest digit first, a dot for the leading one), and refused
    from that second on. *)
Fixpoint digits (p : positive) : string :=
  match p with
  | xH => "."
  | xO q => String "0" (digits q)
  | xI q => String "1" (digits q)
  end.

Fixpoint read_digits (s : string) : positive * string :=
  match s with
  | EmptyString => (xH, EmptyString)
  | String c rest =>
      if Ascii.eqb c "0"
      then let (q, r) := read_digits rest in (xO q, r)
      else if Ascii.eqb c "1"
           then let (q, r) := read_digits rest in (xI q, r)
           else (xH, rest)
  end.

Definition whole_seconds : Library :=
  mkLibrary (fun _ password => password)
            (fun password hash => String.eqb password hash)
            (fun payload =>
               (digits (Z.to_pos (exp payload / one_second + 1))
                ++ match sub payload with Some s => s | None => EmptyString end)%string)
            (fun now token =>
               let (p, subject) := read_digits token in
               let seconds := Zpos p - 1 in
               if now <? seconds * one_second
               then Some (mkPayload (Some subject) (seconds * one_second))
               else None).

End Demo.

(** * Properties *)

(** ** Strings *)

Lemma substring_0_length (n : nat) (s : string) :
  String.length (substring 0 n s) <= n.
Proof.
  revert s; induction n as [|n IH]; intros [|c s]; simpl; try lia.
  specialize (IH s); lia.
Qed.

Lemma substring_0_prefix (n : nat) (s : string) :
  prefix (substring 0 n s) s = true.
Proof.
  revert s; induction n as [|n IH]; intros [|c s]; simpl; auto.
  destruct (ascii_dec c c) as [_|ne]; [apply IH | now elim ne].
Qed.

(** ** One request, path by path *)

Ltac run_handler :=
  unfold send_message, get_conversation_messages, delete_chatbot, bind, try_except,
    find_conversation, find_chatbot, utcnow, insert_one, chat_send_message, ret, raise.

Section Turn.

Variables (env : Env) (conversation_id : string) (message_data : ChatMessage.t)
          (current_user : User.t) (w : World).
Variables (conversation : Conversation.t) (chatbot : Chatbot.t).

(** The request passes the three checks of lines 283-292. *)
Hypothesis Hconv : conversation_by_id conversation_id w = Some conversation.
Hypothesis Howner : Conversation.user_id conversation = User.id current_user.
Hypothesis Hbot : chatbot_by_id (Conversation.chatbot_id conversation) w = Some chatbot.

Let text := ChatMessage.message message_data.
Let t_user := (clock w + Z.of_nat (wait_user env))%Z.
Let user_message_doc :=
  Message.mk (uuid_user env) conversation_id "user" text t_user.
Let prompt := system_message_of chatbot.

Lemma turn_user_write_fails (reason : string) :
  user_write env = Some reason ->
  send_message env conversation_id message_data current_user w =
    (Raise (StorageError reason),
     log (EvInsertMessage user_message_doc (Some reason)) (set_clock t_user w)).
Proof.
  intros Hw. run_handler. rewrite Hconv, Howner, String.eqb_refl. simpl.
  rewrite Hbot, Hw. reflexivity.
Qed.

Lemma turn_answered (response : string) :
  user_write env = None ->
  llm env prompt conversation_id text = inl response ->
  bot_write env = None ->
  let t_bot := (t_user + Z.of_nat (wait_bot env))%Z in
  let bot_message_doc :=
    Message.mk (uuid_bot env) conversation_id "chatbot" response t_bot in
  send_message env conversation_id message_data current_user w =
    (Ok (user_message_doc, bot_message_doc),
     mkWorld (chatbots_collection w) (conversations_collection w)
             ((messages_collection w ++ [user_message_doc]) ++ [bot_message_doc])
             t_bot
             (((trace w ++ [EvInsertMessage user_message_doc None])
                 ++ [EvLlmSend prompt conversation_id text (inl response)])
                 ++ [EvInsertMessage bot_message_doc None])).
Proof.
  intros Hw Hl Hb. run_handler. rewrite Hconv, Howner, String.eqb_refl. simpl.
  rewrite Hbot, Hw. simpl. fold text prompt. rewrite Hl, Hb. reflexivity.
Qed.

Lemma turn_gateway_fails (reason : string) :
  user_write env = None ->
  llm env prompt conversation_id text = inr reason ->
  let t_bot := (t_user + Z.of_nat (wait_fallback env))%Z in
  let bot_message_doc :=
    Message.mk (uuid_fallback env) conversation_id "chatbot"
               (fallback_content (GenerationError reason)) t_bot in
  let w1 :=
    mkWorld (chatbots_collection w) (conversations_collection w)
            (messages_collection w ++ [user_message_doc])
            t_bot
            ((trace w ++ [EvInsertMessage user_message_doc None])
               ++ [EvLlmSend prompt conversation_id text (inr reason)]) in
  send_message env conversation_id message_data current_user w =
    match fallback_write env with
    | None =>
        (Ok (user_message_doc, bot_message_doc),
         log (EvInsertMessage bot_message_doc None)
             (set_messages (messages_collection w1 ++ [bot_message_doc]) w1))
    | Some r =>
        (Raise (StorageError r), log (EvInsertMessage bot_message_doc (Some r)) w1)
    end.
Proof.
  intros Hw Hl. run_handler. rewrite Hconv, Howner, String.eqb_refl. simpl.
  rewrite Hbot, Hw. simpl. fold text prompt. rewrite Hl. simpl.
  destruct (fallback_write env); reflexivity.
Qed.

Lemma turn_bot_write_fails (response reason : string) :
  user_write env = None ->
  llm env prompt conversation_id text = inl response ->
  bot_write env = Some reason ->
  let t_bot := (t_user + Z.of_nat (wait_bot env))%Z in
  let lost := Message.mk (uuid_bot env) conversation_id "chatbot" response t_bot in
  let t_fallback := (t_bot + Z.of_nat (wait_fallback env))%Z in
  let bot_message_doc :=
    Message.mk (uuid_fallback env) conversation_id "chatbot"
               (fallback_content (StorageError reason)) t_fallback in
  let w1 :=
    mkWorld (chatbots_collection w) (conversations_collection w)
            (messages_collection w ++ [user_message_doc])
            t_fallback
            (((trace w ++ [EvInsertMessage user_message_doc None])
                ++ [EvLlmSend prompt conversation_id text (inl response)])
                ++ [EvInsertMessage lost (Some reason)]) in
  send_message env conversation_id message_data current_user w =
    match fallback_write env with
    | None =>
        (Ok (user_message_doc, bot_message_doc),
         log (EvInsertMessage bot_message_doc None)
             (set_messages (messages_collection w1 ++ [bot_message_doc]) w1))
    | Some r =>
        (Raise (StorageError r), log (EvInsertMessage bot_message_doc (Some r)) w1)
    end.
Proof.
  intros Hw Hl Hb. run_handler. rewrite Hconv, Howner, String.eqb_refl. simpl.
  rewrite Hbot, Hw. simpl. fold text prompt. rewrite Hl, Hb. simpl.
  destruct (fallback_write env); reflexivity.
Qed.

End Turn.

(** ** Gateway failures *)

(** C1, as amended: in a turn whose Gateway call fails, and whose fallback
    write the store accepts, [send_message] appends the user message and a
    fallback message of the chatbot, and returns both as a normal result;
    the fallback content is the fixed opening, then the first 50
    characters at most of the failure reason, then "...)". *)
Theorem C1_gateway_failure_fallback :
  forall env conversation_id message_data current_user w conversation chatbot reason,
    conversation_by_id conversation_id w = Some conversation ->
    Conversation.user_id conversation = User.id current_user ->
    chatbot_by_id (Conversation.chatbot_id conversation) w = Some chatbot ->
    user_write env = None ->
    llm env (system_message_of chatbot) conversation_id
        (ChatMessage.message message_data) = inr reason ->
    fallback_write env = None ->
    exists user_message bot_response w',
      send_message env conversation_id message_data current_user w
        = (Ok (user_message, bot_response), w') /\
      messages_collection w' = messages_collection w ++ [user_message; bot_response] /\
      Message.sender_type user_message = "user" /\
      Message.content user_message = ChatMessage.message message_data /\
      Message.sender_type bot_response = "chatbot" /\
      Message.conversation_id bot_response = conversation_id /\
      exists excerpt,
        Message.content bot_response = (fallback_opening ++ excerpt ++ "...)")%string /\
        excerpt = substring 0 50 reason /\
        String.length excerpt <= 50 /\
        prefix excerpt reason = true.
Proof.
  intros env cid data u w conv cb reason Hconv Howner Hbot Hw Hl Hf.
  rewrite (turn_gateway_fails env cid data u w conv cb Hconv Howner Hbot reason Hw Hl).
  rewrite Hf. do 3 eexists. split; [reflexivity|]. simpl.
  split; [now rewrite <- app_assoc|].
  repeat (split; [reflexivity|]).
  exists (substring 0 50 reason). repeat split.
  - apply substring_0_length.
  - apply substring_0_prefix.
Qed.

Lemma C1_gateway_failure_fallback_witness :
  exists user_message bot_response w',
    send_message Sample.gateway_down "c-1" Sample.hello Sample.ada Sample.fresh
      = (Ok (user_message, bot_response), w') /\
    messages_collection w'
      = messages_collection Sample.fresh ++ [user_message; bot_response] /\
    Message.sender_type user_message = "user" /\
    Message.content user_message = ChatMessage.message Sample.hello /\
    Message.sender_type bot_response = "chatbot" /\
    Message.conversation_id bot_response = "c-1" /\
    exists excerpt,
      Message.content bot_response = (fallback_opening ++ excerpt ++ "...)")%string /\
      excerpt = substring 0 50 Sample.long_reason /\
      String.length excerpt <= 50 /\
      prefix excerpt Sample.long_reason = true.
Proof.
  apply (C1_gateway_failure_fallback Sample.gateway_down "c-1" Sample.hello Sample.ada
           Sample.fresh Sample.chat Sample.nova Sample.long_reason); reflexivity.
Defined.

(** C1 as stated fails when the store refuses the fallback write as well:
    the Gateway call has failed, the request ends in the driver's
    exception, and the transcript holds the user message alone. *)
Lemma C1_fallback_write_refused :
  llm Sample.gateway_and_store_down (system_message_of Sample.nova) "c-1" "Hello"
    = inr Sample.long_reason /\
  fst (send_message Sample.gateway_and_store_down "c-1" Sample.hello Sample.ada Sample.fresh)
    = Raise (StorageError "connection reset") /\
  messages_collection
    (snd (send_message Sample.gateway_and_store_down "c-1" Sample.hello Sample.ada Sample.fresh))
    = [Message.mk "m-1" "c-1" "user" "Hello" 11%Z].
Proof. repeat split. Qed.

(** ** The healthy turn *)

(** C2: conversation found, caller its owner, chatbot found, the store
    accepting both writes and the Gateway returning text: the response is
    the user message and the chatbot's message carrying that text, the
    two are appended to the collection in this order, and the second is
    stamped no earlier than the first. *)
Theorem C2_healthy_turn :
  forall env conversation_id message_data current_user w conversation chatbot response,
    conversation_by_id conversation_id w = Some conversation ->
    Conversation.user_id conversation = User.id current_user ->
    chatbot_by_id (Conversation.chatbot_id conversation) w = Some chatbot ->
    user_write env = None ->
    bot_write env = None ->
    llm env (system_message_of chatbot) conversation_id
        (ChatMessage.message message_data) = inl response ->
    exists user_message bot_response w',
      send_message env conversation_id message_data current_user w
        = (Ok (user_message, bot_response), w') /\
      messages_collection w' = messages_collection w ++ [user_message; bot_response] /\
      Message.sender_type user_message = "user" /\
      Message.content user_message = ChatMessage.message message_data /\
      Message.conversation_id user_message = conversation_id /\
      Message.sender_type bot_response = "chatbot" /\
      Message.content bot_response = response /\
      Message.conversation_id bot_response = conversation_id /\
      (Message.timestamp bot_response >= Message.timestamp user_message)%Z /\
      trace w' = trace w ++
        [EvInsertMessage user_message None;
         EvLlmSend (system_message_of chatbot) conversation_id
                   (ChatMessage.message message_data) (inl response);
         EvInsertMessage bot_response None].
Proof.
  intros env cid data u w conv cb response Hconv Howner Hbot Hw Hb Hl.
  rewrite (turn_answered env cid data u w conv cb Hconv Howner Hbot response Hw Hl Hb).
  do 3 eexists. split; [reflexivity|]. simpl.
  split; [now rewrite <- app_assoc|].
  repeat (split; [reflexivity|]).
  split; [lia|]. now rewrite <- !app_assoc.
Qed.

Lemma C2_healthy_turn_witness :
  exists user_message bot_response w',
    send_message Sample.healthy "c-1" Sample.hello Sample.ada Sample.fresh
      = (Ok (user_message, bot_response), w') /\
    messages_collection w'
      = messages_collection Sample.fresh ++ [user_message; bot_response] /\
    Message.sender_type user_message = "user" /\
    Message.content user_message = ChatMessage.message Sample.hello /\
    Message.conversation_id user_message = "c-1" /\
    Message.sender_type bot_response = "chatbot" /\
    Message.content bot_response = "Hi there" /\
    Message.conversation_id bot_response = "c-1" /\
    (Message.timestamp bot_response >= Message.timestamp user_message)%Z /\
    trace w' = trace Sample.fresh ++
      [EvInsertMessage user_message None;
       EvLlmSend (system_message_of Sample.nova) "c-1"
                 (ChatMessage.message Sample.hello) (inl "Hi there");
       EvInsertMessage bot_response None].
Proof.
  apply (C2_healthy_turn Sample.healthy "c-1" Sample.hello Sample.ada Sample.fresh
           Sample.chat Sample.nova "Hi there"); reflexivity.
Defined.

(** ** Failures before the Gateway is reached *)

Ltac split_paths :=
  repeat match goal with
         | |- context [conversation_by_id ?c ?w] =>
             destruct (conversation_by_id c w) eqn:?; simpl
         | |- context [negb (?a =? ?b)] => destruct (a =? b) eqn:?; simpl
         | |- context [chatbot_by_id ?c ?w] => destruct (chatbot_by_id c w) eqn:?; simpl
         | |- context [user_write ?e] => destruct (user_write e) eqn:?; simpl
         | |- context [llm ?e ?s ?c ?t] => destruct (llm e s c t) eqn:?; simpl
         | |- context [bot_write ?e] => destruct (bot_write e) eqn:?; simpl
         | |- context [fallback_write ?e] => destruct (fallback_write e) eqn:?; simpl
         end.

Lemma send_message_not_owner env conversation_id message_data current_user w conversation :
  conversation_by_id conversation_id w = Some conversation ->
  Conversation.user_id conversation <> User.id current_user ->
  send_message env conversation_id message_data current_user w
    = (Raise (HTTPException 403 "Not authorized"), w).
Proof.
  intros Hconv Hne. run_handler. rewrite Hconv.
  apply String.eqb_neq in Hne. now rewrite Hne.
Qed.

(** What a request adds to the log: nothing, or the user write, then the
    Gateway call, then the writes of the chatbot's turn. *)
Lemma send_message_events env conversation_id message_data current_user w :
  exists events,
    trace (snd (send_message env conversation_id message_data current_user w))
      = trace w ++ events /\
    forall system_message session_id text reply,
      In (EvLlmSend system_message session_id text reply) events ->
      exists user_message rest,
        events = EvInsertMessage user_message None
                   :: EvLlmSend system_message session_id text reply :: rest /\
        Message.sender_type user_message = "user" /\
        Message.content user_message = ChatMessage.message message_data /\
        In user_message
           (messages_collection
              (snd (send_message env conversation_id message_data current_user w))).
Proof.
  run_handler; simpl; split_paths; simpl;
    rewrite <- ?app_assoc; simpl;
    (eexists; split; [symmetry; apply app_nil_r || reflexivity|]);
    intros sm sid txt reply Hin; simpl in Hin;
    repeat (destruct Hin as [Hin|Hin]; try discriminate Hin);
    try contradiction;
    injection Hin as <- <- <- <-;
    do 2 eexists; (split; [reflexivity|]); simpl;
    repeat split; rewrite ?in_app_iff; simpl; auto.
Qed.

(** C3: when the write of the user's message fails, the request ends in
    that storage error, the Gateway is not called and no message of the
    chatbot is written: the collections are as before and the log gains
    the one failed write.  And in every request, a Gateway call is
    preceded by the accepted write of the user's message. *)
Theorem C3_user_write_failure :
  forall env conversation_id message_data current_user w,
    (forall conversation chatbot reason,
        conversation_by_id conversation_id w = Some conversation ->
        Conversation.user_id conversation = User.id current_user ->
        chatbot_by_id (Conversation.chatbot_id conversation) w = Some chatbot ->
        user_write env = Some reason ->
        exists user_message w',
          send_message env conversation_id message_data current_user w
            = (Raise (StorageError reason), w') /\
          messages_collection w' = messages_collection w /\
          conversations_collection w' = conversations_collection w /\
          chatbots_collection w' = chatbots_collection w /\
          trace w' = trace w ++ [EvInsertMessage user_message (Some reason)] /\
          Message.sender_type user_message = "user") /\
    (exists events,
        trace (snd (send_message env conversation_id message_data current_user w))
          = trace w ++ events /\
        forall system_message session_id text reply,
          In (EvLlmSend system_message session_id text reply) events ->
          exists user_message rest,
            events = EvInsertMessage user_message None
                       :: EvLlmSend system_message session_id text reply :: rest /\
            Message.sender_type user_message = "user" /\
            Message.content user_message = ChatMessage.message message_data /\
            In user_message
               (messages_collection
                  (snd (send_message env conversation_id message_data current_user w)))).
Proof.
  intros env cid data u w. split.
  - intros conv cb reason Hconv Howner Hbot Hw.
    rewrite (turn_user_write_fails env cid data u w conv cb Hconv Howner Hbot reason Hw).
    do 2 eexists. repeat split.
  - apply send_message_events.
Qed.

Lemma C3_user_write_failure_witness :
  exists user_message w',
    send_message Sample.store_down "c-1" Sample.hello Sample.ada Sample.talked
      = (Raise (StorageError "connection reset"), w') /\
    messages_collection w' = messages_collection Sample.talked /\
    conversations_collection w' = conversations_collection Sample.talked /\
    chatbots_collection w' = chatbots_collection Sample.talked /\
    trace w' = trace Sample.talked ++ [EvInsertMessage user_message (Some "connection reset")] /\
    Message.sender_type user_message = "user".
Proof.
  apply (proj1 (C3_user_write_failure Sample.store_down "c-1" Sample.hello Sample.ada
                  Sample.talked) Sample.chat Sample.nova "connection reset");
    reflexivity.
Defined.

(** C4: a caller other than the owner of an existing conversation gets the
    403 "Not authorized" and the world is left exactly as it was: no
    collection changes, no outside effect is logged, the clock is not
    read. *)
Theorem C4_not_owner_no_writes :
  forall env conversation_id message_data current_user w conversation,
    conversation_by_id conversation_id w = Some conversation ->
    Conversation.user_id conversation <> User.id current_user ->
    send_message env conversation_id message_data current_user w
      = (Raise (HTTPException 403 "Not authorized"), w).
Proof.
  intros env cid data u w conv. apply send_message_not_owner.
Qed.

Lemma C4_not_owner_no_writes_witness :
  send_message Sample.healthy "c-1" Sample.hello Sample.eve Sample.talked
    = (Raise (HTTPException 403 "Not authorized"), Sample.talked).
Proof.
  apply (C4_not_owner_no_writes Sample.healthy "c-1" Sample.hello Sample.eve
           Sample.talked Sample.chat); [reflexivity | discriminate].
Defined.

(** C5, as amended: an unknown conversation id gives the 404
    "Conversation not found"; an existing conversation, asked by its
    owner, whose chatbot is gone gives the 404 "Chatbot not found"; both
    leave the world exactly as it was.  (When the chatbot is gone and the
    caller is not the owner, the 403 of the ownership check comes first,
    also without any write.) *)
Theorem C5_not_found_no_writes :
  forall env conversation_id message_data current_user w,
    (conversation_by_id conversation_id w = None ->
     send_message env conversation_id message_data current_user w
       = (Raise (HTTPException 404 "Conversation not found"), w)) /\
    (forall conversation,
        conversation_by_id conversation_id w = Some conversation ->
        chatbot_by_id (Conversation.chatbot_id conversation) w = None ->
        (Conversation.user_id conversation = User.id current_user ->
         send_message env conversation_id message_data current_user w
           = (Raise (HTTPException 404 "Chatbot not found"), w)) /\
        (Conversation.user_id conversation <> User.id current_user ->
         send_message env conversation_id message_data current_user w
           = (Raise (HTTPException 403 "Not authorized"), w))).
Proof.
  intros env cid data u w. split.
  - intros Hconv. run_handler. now rewrite Hconv.
  - intros conv Hconv Hbot. split; intros Howner.
    + run_handler. rewrite Hconv, Howner, String.eqb_refl. simpl. now rewrite Hbot.
    + now apply send_message_not_owner with conv.
Qed.

Lemma C5_not_found_no_writes_witness :
  send_message Sample.healthy "c-9" Sample.hello Sample.ada Sample.talked
    = (Raise (HTTPException 404 "Conversation not found"), Sample.talked) /\
  send_message Sample.healthy "c-1" Sample.hello Sample.ada Sample.orphaned
    = (Raise (HTTPException 404 "Chatbot not found"), Sample.orphaned).
Proof.
  split.
  - apply (proj1 (C5_not_found_no_writes Sample.healthy "c-9" Sample.hello Sample.ada
                    Sample.talked)); reflexivity.
  - apply (proj1 (proj2 (C5_not_found_no_writes Sample.healthy "c-1" Sample.hello
                           Sample.ada Sample.orphaned)
                        Sample.chat eq_refl eq_refl)); reflexivity.
Defined.

(** C5 as stated fails for a caller who is not the owner: the chatbot of
    the conversation is gone, and the answer is the 403, not a 404. *)
Lemma C5_missing_chatbot_not_owner :
  conversation_by_id "c-1" Sample.orphaned = Some Sample.chat /\
  chatbot_by_id (Conversation.chatbot_id Sample.chat) Sample.orphaned = None /\
  send_message Sample.healthy "c-1" Sample.hello Sample.eve Sample.orphaned
    = (Raise (HTTPException 403 "Not authorized"), Sample.orphaned).
Proof. repeat split. Qed.

(** ** The system prompt *)

Lemma string_app_assoc (a b c : string) : ((a ++ b) ++ c = a ++ (b ++ c))%string.
Proof. induction a as [|x a IH]; simpl; [reflexivity | now rewrite IH]. Qed.

(** C6, as amended: the system message is the introduction, " You are ",
    the name, ". ", the description (a space stands between the
    introduction and "You are") and then one of two fixed clauses chosen
    by is_censored; it depends on these four fields only, and switching
    is_censored changes the closing clause and nothing before it. *)
Theorem C6_system_message_composition :
  forall chatbot,
    system_message_of chatbot
      = (Chatbot.introduction chatbot ++ " You are " ++ Chatbot.name chatbot ++ ". "
           ++ Chatbot.description chatbot
           ++ policy_clause (Chatbot.is_censored chatbot))%string /\
    policy_clause true = " Keep your responses appropriate and family-friendly." /\
    policy_clause false = " You can engage in roleplay and adult content as requested." /\
    (forall other,
        Chatbot.introduction other = Chatbot.introduction chatbot ->
        Chatbot.name other = Chatbot.name chatbot ->
        Chatbot.description other = Chatbot.description chatbot ->
        Chatbot.is_censored other = Chatbot.is_censored chatbot ->
        system_message_of other = system_message_of chatbot) /\
    (exists base,
        forall b, system_message_of (with_is_censored b chatbot)
                  = (base ++ policy_clause b)%string).
Proof.
  assert (shape : forall c,
             system_message_of c
             = (Chatbot.introduction c ++ " You are " ++ Chatbot.name c ++ ". "
                  ++ Chatbot.description c ++ policy_clause (Chatbot.is_censored c))%string).
  { intros c. unfold system_message_of, policy_clause.
    destruct (Chatbot.is_censored c); cbn [negb]; now rewrite !string_app_assoc. }
  intros chatbot. split; [apply shape|].
  split; [reflexivity|]. split; [reflexivity|]. split.
  - intros other Hi Hn Hd Hc. now rewrite !shape, Hi, Hn, Hd, Hc.
  - exists (Chatbot.introduction chatbot ++ " You are " ++ Chatbot.name chatbot ++ ". "
              ++ Chatbot.description chatbot)%string.
    intros b. rewrite shape. cbn [with_is_censored Chatbot.introduction Chatbot.name
      Chatbot.description Chatbot.is_censored]. now rewrite !string_app_assoc.
Qed.

Lemma C6_system_message_composition_witness :
  system_message_of (with_is_censored false Sample.nova)
    = "Hi, I'm Nova. You are Nova. a helpful guide You can engage in roleplay and adult content as requested."
  /\ system_message_of (Chatbot.mk "b-2" "u-2" "Nova" "a helpful guide" "Hi, I'm Nova."
                                   true 7%Z "eve")
     = system_message_of Sample.nova.
Proof.
  split.
  - exact (proj1 (C6_system_message_composition (with_is_censored false Sample.nova))).
  - apply (proj1 (proj2 (proj2 (proj2 (C6_system_message_composition Sample.nova)))));
      reflexivity.
Defined.

(** C6 as stated fails: the specification's composition puts "You are"
    right after the introduction, the code puts a space between them, so
    whatever the two clauses are the strings differ. *)
Lemma C6_space_after_introduction :
  system_message_of Sample.nova
    = "Hi, I'm Nova. You are Nova. a helpful guide Keep your responses appropriate and family-friendly."
  /\ spec_system_prompt policy_clause Sample.nova
     = "Hi, I'm Nova.You are Nova. a helpful guide Keep your responses appropriate and family-friendly."
  /\ forall clause, system_message_of Sample.nova <> spec_system_prompt clause Sample.nova.
Proof.
  split; [reflexivity|]. split; [reflexivity|].
  intros clause H. discriminate H.
Qed.

(** ** Sender types *)

(** C8, as amended: whatever happens in a request, the messages it adds
    to the collection have sender_type "user" or "chatbot" (the code's
    name for the bot side), and in every response, answered or fallback,
    the first message is the user's and the second the chatbot's, both
    among the messages added. *)
Theorem C8_sender_types_written :
  forall env conversation_id message_data current_user w,
  exists written,
    messages_collection (snd (send_message env conversation_id message_data current_user w))
      = messages_collection w ++ written /\
    Forall written_sender_type written /\
    forall user_message bot_response,
      fst (send_message env conversation_id message_data current_user w)
        = Ok (user_message, bot_response) ->
      written = [user_message; bot_response] /\
      Message.sender_type user_message = "user" /\
      Message.sender_type bot_response = "chatbot".
Proof.
  intros env cid data u w. unfold written_sender_type.
  run_handler; simpl; split_paths;
    rewrite <- ?app_assoc; simpl;
    (eexists; split; [symmetry; apply app_nil_r || reflexivity|]);
    (split; [repeat constructor; simpl; auto|]);
    intros um bm Hok; try discriminate Hok;
    injection Hok as <- <-; repeat split.
Qed.

Lemma C8_sender_types_written_witness :
  Message.sender_type (Message.mk "m-1" "c-1" "user" "Hello" 11%Z) = "user" /\
  Message.sender_type
    (Message.mk "m-3" "c-1" "chatbot"
       (fallback_content (StorageError "connection reset")) 16%Z) = "chatbot".
Proof.
  destruct (C8_sender_types_written Sample.bot_write_fails "c-1" Sample.hello Sample.ada
              Sample.fresh) as [written [_ [_ Hok]]].
  exact (proj2 (Hok _ _ eq_refl)).
Defined.

(** C8 as stated fails on the literal value: the message stored for the
    chatbot's turn carries "chatbot", which is neither "user" nor "bot". *)
Lemma C8_chatbot_is_not_bot :
  exists m,
    In m (messages_collection
            (snd (send_message Sample.healthy "c-1" Sample.hello Sample.ada Sample.fresh))) /\
    Message.sender_type m = "chatbot" /\
    Message.sender_type m <> "user" /\
    Message.sender_type m <> "bot".
Proof.
  exists (Message.mk "m-2" "c-1" "chatbot" "Hi there" 13%Z).
  split; [simpl; auto|]. repeat split; discriminate.
Qed.

(** ** Deleting a chatbot *)

Lemma delete_many_nothing {D} (l : list D) : delete_many (fun _ => false) l = l.
Proof. induction l as [|x l IH]; simpl; [reflexivity | now rewrite IH]. Qed.

Lemma delete_chatbot_keeps_messages chatbot_id current_user w :
  messages_collection (snd (delete_chatbot chatbot_id current_user w))
    = messages_collection w.
Proof.
  run_handler. destruct (chatbot_by_id chatbot_id w) as [c|]; [|reflexivity].
  destruct (negb (Chatbot.user_id c =? User.id current_user)); [reflexivity|].
  simpl. apply (delete_many_nothing (messages_collection w)).
Qed.

(** C9 against the code: ada deletes her chatbot b-1.  The chatbot and
    its conversation c-1 are removed, and the two messages of c-1 are
    still in the collection: the delete of line 258 selects the
    conversation ids in the empty list. *)
Theorem C9_delete_chatbot_orphans_messages :
  delete_chatbot "b-1" Sample.ada Sample.talked
    = (Ok "Chatbot deleted successfully",
       mkWorld [] []
               [Message.mk "m-1" "c-1" "user" "Hello" 11%Z;
                Message.mk "m-2" "c-1" "chatbot" "Hi there" 13%Z]
               13%Z []).
Proof. reflexivity. Qed.

(** ** Storage failures on the chatbot's turn *)

(** C10, as amended: when the Gateway returns text and the write of that
    answer fails, the handler catches the storage error like a Gateway
    error: provided the store accepts the fallback write, the request
    returns normally with the user message and a fallback message whose
    content quotes the first 50 characters at most of the storage error;
    the answer itself is never stored. *)
Theorem C10_bot_write_failure_fallback :
  forall env conversation_id message_data current_user w conversation chatbot
         response reason,
    conversation_by_id conversation_id w = Some conversation ->
    Conversation.user_id conversation = User.id current_user ->
    chatbot_by_id (Conversation.chatbot_id conversation) w = Some chatbot ->
    user_write env = None ->
    llm env (system_message_of chatbot) conversation_id
        (ChatMessage.message message_data) = inl response ->
    bot_write env = Some reason ->
    fallback_write env = None ->
    exists user_message bot_response w',
      send_message env conversation_id message_data current_user w
        = (Ok (user_message, bot_response), w') /\
      messages_collection w' = messages_collection w ++ [user_message; bot_response] /\
      Message.sender_type user_message = "user" /\
      Message.sender_type bot_response = "chatbot" /\
      Message.content bot_response
        = (fallback_opening ++ substring 0 50 reason ++ "...)")%string /\
      String.length (substring 0 50 reason) <= 50 /\
      prefix (substring 0 50 reason) reason = true /\
      Message.content bot_response = fallback_content (StorageError reason).
Proof.
  intros env cid data u w conv cb response reason Hconv Howner Hbot Hw Hl Hb Hf.
  rewrite (turn_bot_write_fails env cid data u w conv cb Hconv Howner Hbot
             response reason Hw Hl Hb).
  rewrite Hf. do 3 eexists. split; [reflexivity|]. simpl.
  split; [now rewrite <- app_assoc|].
  repeat (split; [reflexivity|]).
  split; [apply substring_0_length|].
  split; [apply substring_0_prefix | reflexivity].
Qed.

Lemma C10_bot_write_failure_fallback_witness :
  exists user_message bot_response w',
    send_message Sample.bot_write_fails "c-1" Sample.hello Sample.ada Sample.fresh
      = (Ok (user_message, bot_response), w') /\
    messages_collection w'
      = messages_collection Sample.fresh ++ [user_message; bot_response] /\
    Message.sender_type user_message = "user" /\
    Message.sender_type bot_response = "chatbot" /\
    Message.content bot_response
      = (fallback_opening ++ substring 0 50 "connection reset" ++ "...)")%string /\
    String.length (substring 0 50 "connection reset") <= 50 /\
    prefix (substring 0 50 "connection reset") "connection reset" = true /\
    Message.content bot_response = fallback_content (StorageError "connection reset").
Proof.
  apply (C10_bot_write_failure_fallback Sample.bot_write_fails "c-1" Sample.hello
           Sample.ada Sample.fresh Sample.chat Sample.nova "Hi there" "connection reset");
    reflexivity.
Defined.

(** C10 as stated fails when the fallback write is refused too: the
    Gateway has returned text, the write of the answer has failed, and
    the request ends in the storage error of the second write. *)
Lemma C10_both_bot_writes_refused :
  llm Sample.bot_writes_fail (system_message_of Sample.nova) "c-1" "Hello" = inl "Hi there" /\
  bot_write Sample.bot_writes_fail = Some "connection reset" /\
  fst (send_message Sample.bot_writes_fail "c-1" Sample.hello Sample.ada Sample.fresh)
    = Raise (StorageError "still down") /\
  messages_collection
    (snd (send_message Sample.bot_writes_fail "c-1" Sample.hello Sample.ada Sample.fresh))
    = [Message.mk "m-1" "c-1" "user" "Hello" 11%Z].
Proof. repeat split. Qed.

(** ** The transcript after a sequence of turns *)





(** The model of [sort("timestamp", 1)] is a sort: its result is a
    rearrangement of the documents, in ascending order of timestamp. *)
Lemma insert_by_timestamp_perm m l : Permutation (m :: l) (insert_by_timestamp m l).
Proof.
  induction l as [|x l IH]; simpl; [reflexivity|].
  destruct (Message.timestamp m <=? Message.timestamp x)%Z; [reflexivity|].
  rewrite perm_swap. now constructor.
Qed.

Lemma insert_by_timestamp_sorted m l :
  StronglySorted timestamp_le l -> StronglySorted timestamp_le (insert_by_timestamp m l).
Proof.
  induction 1 as [|x l Hs IH Hx]; simpl; [repeat constructor|].
  destruct (Message.timestamp m <=? Message.timestamp x)%Z eqn:Hle.
  - apply Z.leb_le in Hle. constructor; [now constructor|].
    constructor; [exact Hle|].
    eapply Forall_impl; [|exact Hx]. unfold timestamp_le; intros; lia.
  - apply Z.leb_gt in Hle. constructor; [exact IH|].
    eapply Permutation_Forall; [apply insert_by_timestamp_perm|].
    constructor; [unfold timestamp_le; lia | exact Hx].
Qed.

Lemma sort_by_timestamp_is_sort l :
  Permutation l (sort_by_timestamp l) /\ StronglySorted timestamp_le (sort_by_timestamp l).
Proof.
  induction l as [|x l [IHp IHs]]; simpl; [split; constructor|]. split.
  - etransitivity; [|apply insert_by_timestamp_perm]. now constructor.
  - now apply insert_by_timestamp_sorted.
Qed.








(** * Further properties of the handlers *)

(** ** send_message: what a request may touch *)

Lemma send_message_only_appends_aux env conversation_id message_data current_user w :
  chatbots_collection (snd (send_message env conversation_id message_data current_user w))
    = chatbots_collection w /\
  conversations_collection (snd (send_message env conversation_id message_data current_user w))
    = conversations_collection w /\
  exists written,
    messages_collection (snd (send_message env conversation_id message_data current_user w))
      = messages_collection w ++ written /\
    Forall (fun m => Message.conversation_id m = conversation_id) written.
Proof.
  run_handler; simpl; split_paths; rewrite <- ?app_assoc; simpl;
    (split; [reflexivity|]); (split; [reflexivity|]);
    (eexists; split; [symmetry; apply app_nil_r || reflexivity|]);
    repeat constructor.
Qed.

(** X1: whatever its outcome, a request leaves the chatbots and the
    conversations as they were, does not set the clock back, and keeps
    every stored message in place: the collection only grows at its end,
    by at most two messages, all of them in the conversation of the
    request. *)
Theorem send_message_only_appends :
  forall env conversation_id message_data current_user w,
    chatbots_collection (snd (send_message env conversation_id message_data current_user w))
      = chatbots_collection w /\
    conversations_collection
        (snd (send_message env conversation_id message_data current_user w))
      = conversations_collection w /\
    (clock w <= clock (snd (send_message env conversation_id message_data current_user w)))%Z /\
    exists written,
      messages_collection (snd (send_message env conversation_id message_data current_user w))
        = messages_collection w ++ written /\
      length written <= 2 /\
      Forall (fun m => Message.conversation_id m = conversation_id) written.
Proof.
  intros env cid data u w.
  run_handler; simpl; split_paths; rewrite <- ?app_assoc; simpl;
    (split; [reflexivity|]); (split; [reflexivity|]); (split; [lia|]);
    (eexists; split; [symmetry; apply app_nil_r || reflexivity|]);
    simpl; (split; [lia|]); repeat constructor.
Qed.

(** X2: the language model is called at most once per request, and only
    after the three checks have passed and the user's message has been
    stored; it is then called with the system message of the chatbot as
    stored at that moment, the conversation id as session id and the text
    of the request, and whenever those conditions hold it is called. *)
Theorem send_message_calls_llm_once :
  forall env conversation_id message_data current_user w,
  exists events,
    trace (snd (send_message env conversation_id message_data current_user w))
      = trace w ++ events /\
    length (filter is_llm_send events) <= 1 /\
    (forall system_message session_id text reply,
        In (EvLlmSend system_message session_id text reply) events ->
        session_id = conversation_id /\
        text = ChatMessage.message message_data /\
        reply = llm env system_message session_id text /\
        user_write env = None /\
        exists conversation chatbot,
          conversation_by_id conversation_id w = Some conversation /\
          Conversation.user_id conversation = User.id current_user /\
          chatbot_by_id (Conversation.chatbot_id conversation) w = Some chatbot /\
          system_message = system_message_of chatbot) /\
    (forall conversation chatbot,
        conversation_by_id conversation_id w = Some conversation ->
        Conversation.user_id conversation = User.id current_user ->
        chatbot_by_id (Conversation.chatbot_id conversation) w = Some chatbot ->
        user_write env = None ->
        In (EvLlmSend (system_message_of chatbot) conversation_id
                      (ChatMessage.message message_data)
                      (llm env (system_message_of chatbot) conversation_id
                           (ChatMessage.message message_data)))
           events).
Proof.
  intros env cid data u w.
  run_handler; simpl; split_paths; rewrite <- ?app_assoc; simpl;
    (eexists; split; [symmetry; apply app_nil_r || reflexivity|]);
    simpl; (split; [lia|]); split;
    try (intros sm sid txt reply Hin; simpl in Hin;
         repeat (destruct Hin as [Hin|Hin]; try discriminate Hin);
         try contradiction;
         injection Hin as <- <- <- <-;
         repeat (split; [reflexivity || congruence|]);
         apply String.eqb_eq in Heqb;
         do 2 eexists; repeat split; eassumption);
    intros conv cb Hconv Howner Hbot Hw;
    try discriminate Hconv; try discriminate Hw;
    try (apply String.eqb_neq in Heqb; congruence);
    injection Hconv as <-; rewrite Hbot in *; try discriminate;
    match goal with H : Some _ = Some _ |- _ => injection H as <- end;
    simpl; rewrite ?Heqs; auto.
Qed.

Lemma find_messages_elsewhere conversation_id other l :
  Forall (fun m => Message.conversation_id m = conversation_id) l ->
  other <> conversation_id ->
  filter (fun m => Message.conversation_id m =? other) l = [].
Proof.
  intros Hall Hne. induction Hall as [|m l Hm _ IH]; [reflexivity|]. simpl.
  destruct (String.eqb_spec (Message.conversation_id m) other) as [Heq|_].
  - elim Hne. congruence.
  - exact IH.
Qed.

(** X3: a request on one conversation does not change what any other
    conversation holds: its stored messages, and the answer of
    get_conversation_messages to any reader, are the same before and
    after. *)
Theorem send_message_other_conversations :
  forall env conversation_id message_data current_user w other reader,
    other <> conversation_id ->
    find_messages other
      (messages_collection (snd (send_message env conversation_id message_data current_user w)))
      = find_messages other (messages_collection w) /\
    fst (get_conversation_messages other reader
           (snd (send_message env conversation_id message_data current_user w)))
      = fst (get_conversation_messages other reader w).
Proof.
  intros env cid data u w other reader Hne.
  destruct (send_message_only_appends_aux env cid data u w)
    as (Hbots & Hconvs & written & Hmsgs & Hin).
  assert (Hfind : find_messages other
                    (messages_collection (snd (send_message env cid data u w)))
                  = find_messages other (messages_collection w)).
  { rewrite Hmsgs. unfold find_messages. rewrite filter_app.
    rewrite (find_messages_elsewhere cid other written Hin Hne). apply app_nil_r. }
  split; [exact Hfind|].
  unfold get_conversation_messages, bind, find_conversation, conversation_by_id, raise.
  cbv beta iota. rewrite Hconvs.
  destruct (find _ (conversations_collection w)) as [c|]; [|reflexivity].
  destruct (negb _); [reflexivity|]. cbv beta iota. cbn [fst]. now rewrite Hfind.
Qed.

Lemma send_message_other_conversations_witness :
  find_messages "c-2"
    (messages_collection (snd (send_message Sample.healthy "c-1" Sample.hello Sample.ada
                                 Demo.busy)))
    = find_messages "c-2" (messages_collection Demo.busy) /\
  fst (get_conversation_messages "c-2" Sample.eve
         (snd (send_message Sample.healthy "c-1" Sample.hello Sample.ada Demo.busy)))
    = fst (get_conversation_messages "c-2" Sample.eve Demo.busy).
Proof.
  apply (send_message_other_conversations Sample.healthy "c-1" Sample.hello Sample.ada
           Demo.busy "c-2" Sample.eve).
  discriminate.
Defined.

(** X4: how a request fails, as long as the two lookups answer and the
    request is not cancelled (the failures left are the handler's own
    HTTP errors, refused writes and errors of the language-model client).
    Either one of the three checks refuses it (404, 403, 404) and nothing
    at all has changed, or a write was refused: the write of the user's
    message, and no message was stored, or the write of the fallback
    message, and the user's message was stored without a reply.  An error
    of the language-model client is never what the caller gets. *)
Theorem send_message_failures :
  forall env conversation_id message_data current_user w e w',
    send_message env conversation_id message_data current_user w = (Raise e, w') ->
    ((e = HTTPException 404 "Conversation not found" \/
      e = HTTPException 403 "Not authorized" \/
      e = HTTPException 404 "Chatbot not found") /\ w' = w)
    \/
    (exists reason,
        e = StorageError reason /\
        ((user_write env = Some reason /\
          messages_collection w' = messages_collection w)
         \/
         (fallback_write env = Some reason /\
          exists user_message,
            messages_collection w' = messages_collection w ++ [user_message] /\
            Message.sender_type user_message = "user" /\
            Message.conversation_id user_message = conversation_id /\
            Message.content user_message = ChatMessage.message message_data))).
Proof.
  intros env cid data u w.
  run_handler; simpl; split_paths; intros e w' H; try discriminate H;
    injection H as <- <-; simpl;
    try (left; split; [auto | reflexivity]; fail);
    right; eexists; (split; [reflexivity|]);
    try (left; split; reflexivity);
    right; (split; [reflexivity|]); eexists; repeat split.
Qed.

Lemma send_message_failures_witness :
  ((StorageError "connection reset" = HTTPException 404 "Conversation not found" \/
    StorageError "connection reset" = HTTPException 403 "Not authorized" \/
    StorageError "connection reset" = HTTPException 404 "Chatbot not found") /\
   snd (send_message Sample.gateway_and_store_down "c-1" Sample.hello Sample.ada Sample.fresh)
     = Sample.fresh)
  \/
  (exists reason,
      StorageError "connection reset" = StorageError reason /\
      ((user_write Sample.gateway_and_store_down = Some reason /\
        messages_collection
          (snd (send_message Sample.gateway_and_store_down "c-1" Sample.hello Sample.ada
                  Sample.fresh))
          = messages_collection Sample.fresh)
       \/
       (fallback_write Sample.gateway_and_store_down = Some reason /\
        exists user_message,
          messages_collection
            (snd (send_message Sample.gateway_and_store_down "c-1" Sample.hello Sample.ada
                    Sample.fresh))
            = messages_collection Sample.fresh ++ [user_message] /\
          Message.sender_type user_message = "user" /\
          Message.conversation_id user_message = "c-1" /\
          Message.content user_message = ChatMessage.message Sample.hello))).
Proof.
  apply (send_message_failures Sample.gateway_and_store_down "c-1" Sample.hello Sample.ada
           Sample.fresh).
  reflexivity.
Defined.

(** ** get_conversation_messages *)

(** X5: reading a transcript changes nothing, and only the owner of the
    conversation gets one: it then holds exactly the stored messages of
    that conversation, each as often as it is stored, in ascending order
    of timestamp. *)
Theorem get_conversation_messages_listing :
  forall conversation_id current_user w,
    snd (get_conversation_messages conversation_id current_user w) = w /\
    forall messages,
      fst (get_conversation_messages conversation_id current_user w) = Ok messages ->
      (exists conversation,
          conversation_by_id conversation_id w = Some conversation /\
          Conversation.user_id conversation = User.id current_user) /\
      Permutation (find_messages conversation_id (messages_collection w)) messages /\
      StronglySorted timestamp_le messages /\
      (forall m, In m messages <->
                 In m (messages_collection w) /\
                 Message.conversation_id m = conversation_id).
Proof.
  intros cid u w. run_handler.
  destruct (conversation_by_id cid w) as [c|] eqn:Hconv; simpl;
    [|split; [reflexivity | discriminate]].
  destruct (String.eqb_spec (Conversation.user_id c) (User.id u)) as [Howner|_]; simpl;
    [|split; [reflexivity | discriminate]].
  split; [reflexivity|]. intros l H. injection H as <-.
  destruct (sort_by_timestamp_is_sort (find_messages cid (messages_collection w)))
    as [Hperm Hsorted].
  split; [now exists c|]. split; [exact Hperm|]. split; [exact Hsorted|].
  intros m. split.
  - intros Hin. apply (Permutation_in _ (Permutation_sym Hperm)) in Hin.
    unfold find_messages in Hin. apply filter_In in Hin as [Hin Heq].
    now apply String.eqb_eq in Heq.
  - intros [Hin Heq]. apply (Permutation_in _ Hperm).
    unfold find_messages. apply filter_In. split; [exact Hin|].
    now apply String.eqb_eq.
Qed.

Lemma get_conversation_messages_listing_witness :
  (exists conversation,
      conversation_by_id "c-1" Sample.talked = Some conversation /\
      Conversation.user_id conversation = User.id Sample.ada) /\
  Permutation (find_messages "c-1" (messages_collection Sample.talked))
    [Message.mk "m-1" "c-1" "user" "Hello" 11%Z;
     Message.mk "m-2" "c-1" "chatbot" "Hi there" 13%Z] /\
  StronglySorted timestamp_le
    [Message.mk "m-1" "c-1" "user" "Hello" 11%Z;
     Message.mk "m-2" "c-1" "chatbot" "Hi there" 13%Z] /\
  (forall m,
      In m [Message.mk "m-1" "c-1" "user" "Hello" 11%Z;
            Message.mk "m-2" "c-1" "chatbot" "Hi there" 13%Z] <->
      In m (messages_collection Sample.talked) /\ Message.conversation_id m = "c-1").
Proof.
  apply (proj2 (get_conversation_messages_listing "c-1" Sample.ada Sample.talked)).
  reflexivity.
Defined.

(** ** Lists as collections *)

Lemma insert_desc_perm {D} (key : D -> datetime) x l :
  Permutation (x :: l) (insert_desc key x l).
Proof.
  induction l as [|y l IH]; simpl; [reflexivity|].
  destruct (key y <=? key x)%Z; [reflexivity|].
  rewrite perm_swap. now constructor.
Qed.

Lemma insert_desc_sorted {D} (key : D -> datetime) x l :
  StronglySorted (newer_first key) l ->
  StronglySorted (newer_first key) (insert_desc key x l).
Proof.
  induction 1 as [|y l Hs IH Hy]; simpl; [repeat constructor|].
  destruct (key y <=? key x)%Z eqn:Hle.
  - apply Z.leb_le in Hle. constructor; [now constructor|].
    constructor; [exact Hle|].
    eapply Forall_impl; [|exact Hy]. unfold newer_first; intros; lia.
  - apply Z.leb_gt in Hle. constructor; [exact IH|].
    eapply Permutation_Forall; [apply insert_desc_perm|].
    constructor; [unfold newer_first; lia | exact Hy].
Qed.

Lemma sort_desc_is_sort {D} (key : D -> datetime) l :
  Permutation l (sort_desc key l) /\ StronglySorted (newer_first key) (sort_desc key l).
Proof.
  induction l as [|x l [IHp IHs]]; simpl; [split; constructor|]. split.
  - etransitivity; [|apply insert_desc_perm]. now constructor.
  - now apply insert_desc_sorted.
Qed.

Lemma find_snoc {D} (p : D -> bool) l x :
  find p (l ++ [x]) =
  match find p l with
  | Some y => Some y
  | None => if p x then Some x else None
  end.
Proof.
  induction l as [|y l IH]; simpl; [reflexivity|].
  destruct (p y); [reflexivity | exact IH].
Qed.

(** ** Chatbots *)

(** X6: a chatbot created under an id no stored chatbot has, with the
    write accepted, is what get_chatbot then returns for that id; it
    carries the fields of the request and belongs to its creator, it is
    listed by get_all_chatbots and by the creator's get_my_chatbots, and
    every chatbot that could be looked up before still can. *)
Theorem create_chatbot_round_trip :
  forall out chatbot_data current_user w,
    out_write out = None ->
    chatbot_by_id (out_uuid out) w = None ->
    exists chatbot w',
      create_chatbot out chatbot_data current_user w = (Ok chatbot, w') /\
      get_chatbot (out_uuid out) w' = (Ok chatbot, w') /\
      Chatbot.user_id chatbot = User.id current_user /\
      Chatbot.creator_username chatbot = User.username current_user /\
      Chatbot.name chatbot = ChatbotCreate.name chatbot_data /\
      Chatbot.description chatbot = ChatbotCreate.description chatbot_data /\
      Chatbot.introduction chatbot = ChatbotCreate.introduction chatbot_data /\
      Chatbot.is_censored chatbot = ChatbotCreate.is_censored chatbot_data /\
      (exists listed, get_all_chatbots w' = (Ok listed, w') /\ In chatbot listed) /\
      (exists mine, get_my_chatbots current_user w' = (Ok mine, w') /\ In chatbot mine) /\
      (forall key other, chatbot_by_id key w = Some other ->
                         chatbot_by_id key w' = Some other).
Proof.
  intros out data u w Hw Hfresh.
  unfold create_chatbot, bind, utcnow, insert_chatbot, ret. rewrite Hw. simpl.
  do 2 eexists. split; [reflexivity|].
  unfold get_chatbot, bind, find_chatbot, ret, raise, chatbot_by_id in *. simpl.
  rewrite find_snoc, Hfresh. simpl. rewrite String.eqb_refl.
  split; [reflexivity|]. repeat (split; [reflexivity|]).
  split; [|split].
  - eexists. split; [reflexivity|]. simpl.
    apply (Permutation_in _ (proj1 (sort_desc_is_sort _ _))).
    apply in_app_iff. right. now left.
  - eexists. split; [reflexivity|]. simpl.
    apply (Permutation_in _ (proj1 (sort_desc_is_sort _ _))).
    apply filter_In. split; [|simpl; apply String.eqb_refl].
    apply in_app_iff. right. now left.
  - intros key other Hfind. rewrite find_snoc, Hfind. reflexivity.
Qed.

Lemma create_chatbot_round_trip_witness :
  exists chatbot w',
    create_chatbot Demo.arrives Demo.new_bot Sample.eve Demo.busy = (Ok chatbot, w') /\
    get_chatbot (out_uuid Demo.arrives) w' = (Ok chatbot, w') /\
    Chatbot.user_id chatbot = User.id Sample.eve /\
    Chatbot.creator_username chatbot = User.username Sample.eve /\
    Chatbot.name chatbot = ChatbotCreate.name Demo.new_bot /\
    Chatbot.description chatbot = ChatbotCreate.description Demo.new_bot /\
    Chatbot.introduction chatbot = ChatbotCreate.introduction Demo.new_bot /\
    Chatbot.is_censored chatbot = ChatbotCreate.is_censored Demo.new_bot /\
    (exists listed, get_all_chatbots w' = (Ok listed, w') /\ In chatbot listed) /\
    (exists mine, get_my_chatbots Sample.eve w' = (Ok mine, w') /\ In chatbot mine) /\
    (forall key other, chatbot_by_id key Demo.busy = Some other ->
                       chatbot_by_id key w' = Some other).
Proof.
  apply (create_chatbot_round_trip Demo.arrives Demo.new_bot Sample.eve Demo.busy);
    reflexivity.
Defined.

(** X7: get_all_chatbots asks for no identity, changes nothing, and
    returns every stored chatbot, each as often as it is stored, newest
    first. *)
Theorem get_all_chatbots_listing :
  forall w,
  exists listed,
    get_all_chatbots w = (Ok listed, w) /\
    Permutation (chatbots_collection w) listed /\
    StronglySorted (newer_first Chatbot.created_at) listed.
Proof.
  intros w. eexists. split; [reflexivity|]. apply sort_desc_is_sort.
Qed.

(** X8: get_my_chatbots changes nothing and returns exactly the stored
    chatbots whose user_id is the caller's id, newest first. *)
Theorem get_my_chatbots_listing :
  forall current_user w,
  exists mine,
    get_my_chatbots current_user w = (Ok mine, w) /\
    StronglySorted (newer_first Chatbot.created_at) mine /\
    length mine
      = length (filter (fun c => Chatbot.user_id c =? User.id current_user)
                       (chatbots_collection w)) /\
    (forall c, In c mine <->
               In c (chatbots_collection w) /\ Chatbot.user_id c = User.id current_user).
Proof.
  intros u w. eexists. split; [reflexivity|].
  destruct (sort_desc_is_sort Chatbot.created_at
              (filter (fun c => Chatbot.user_id c =? User.id u) (chatbots_collection w)))
    as [Hperm Hsorted].
  split; [exact Hsorted|]. split; [symmetry; now apply Permutation_length|].
  intros c. split.
  - intros Hin. apply (Permutation_in _ (Permutation_sym Hperm)) in Hin.
    apply filter_In in Hin as [Hin Heq]. now apply String.eqb_eq in Heq.
  - intros [Hin Heq]. apply (Permutation_in _ Hperm), filter_In.
    split; [exact Hin | now apply String.eqb_eq].
Qed.

Lemma map_update_one {D E} (g : D -> E) (p : D -> bool) (f : D -> D) l :
  (forall x, g (f x) = g x) -> map g (update_one p f l) = map g l.
Proof.
  intros Hg. induction l as [|x l IH]; simpl; [reflexivity|].
  destruct (p x); simpl; [now rewrite Hg | now rewrite IH].
Qed.

Lemma find_update_one {D} (p : D -> bool) (f : D -> D) l :
  (forall x, p (f x) = p x) ->
  find p (update_one p f l) = option_map f (find p l).
Proof.
  intros Hp. induction l as [|x l IH]; simpl; [reflexivity|].
  destruct (p x) eqn:Hx; simpl.
  - now rewrite Hp, Hx.
  - now rewrite Hx.
Qed.

Lemma find_update_one_other {D} (p q : D -> bool) (f : D -> D) l :
  (forall x, q (f x) = q x) ->
  (forall x, p x = true -> q x = false) ->
  find q (update_one p f l) = find q l.
Proof.
  intros Hq Hpq. induction l as [|x l IH]; simpl; [reflexivity|].
  destruct (p x) eqn:Hx; simpl.
  - now rewrite Hq, (Hpq x Hx).
  - now rewrite IH.
Qed.

Lemma other_key (a key key' : string) :
  key' <> key -> (a =? key) = true -> (a =? key') = false.
Proof.
  intros Hne Ha. apply String.eqb_eq in Ha. subst a.
  apply String.eqb_neq. congruence.
Qed.

(** X9: no call of update_chatbot, whatever its outcome, changes the id,
    the owner, the creation time or the creator's name of any stored
    chatbot, nor their number and order, nor any conversation or message;
    and the lookup after the update always finds the chatbot again. *)
Theorem update_chatbot_keeps_identity :
  forall write chatbot_id chatbot_data current_user w,
    map Chatbot.id
        (chatbots_collection (snd (update_chatbot write chatbot_id chatbot_data current_user w)))
      = map Chatbot.id (chatbots_collection w) /\
    map Chatbot.user_id
        (chatbots_collection (snd (update_chatbot write chatbot_id chatbot_data current_user w)))
      = map Chatbot.user_id (chatbots_collection w) /\
    map Chatbot.created_at
        (chatbots_collection (snd (update_chatbot write chatbot_id chatbot_data current_user w)))
      = map Chatbot.created_at (chatbots_collection w) /\
    map Chatbot.creator_username
        (chatbots_collection (snd (update_chatbot write chatbot_id chatbot_data current_user w)))
      = map Chatbot.creator_username (chatbots_collection w) /\
    conversations_collection (snd (update_chatbot write chatbot_id chatbot_data current_user w))
      = conversations_collection w /\
    messages_collection (snd (update_chatbot write chatbot_id chatbot_data current_user w))
      = messages_collection w /\
    fst (update_chatbot write chatbot_id chatbot_data current_user w)
      <> Raise internal_server_error.
Proof.
  intros write key data u w.
  unfold update_chatbot, bind, find_chatbot, update_one_chatbot, ret, raise.
  destruct (chatbot_by_id key w) as [c|] eqn:Hfind; simpl;
    [|repeat split; discriminate].
  destruct (negb (Chatbot.user_id c =? User.id u)); simpl;
    [repeat split; discriminate|].
  destruct (sets_a_field data); simpl.
  - destruct write as [reason|]; simpl; [repeat split; discriminate|].
    unfold chatbot_by_id in *. simpl.
    rewrite (find_update_one _ (set_fields data)), Hfind by reflexivity. simpl.
    rewrite !map_update_one by reflexivity. repeat split. discriminate.
  - rewrite Hfind. simpl. repeat split. discriminate.
Qed.

(** X10: what the owner's update does, for a request that gives each
    field a value or leaves it out (none set to null).  A request that
    sets no field writes nothing and returns the chatbot as stored,
    whatever the state of the store; a refused write changes nothing; an
    accepted write replaces the fields the request sets and keeps the
    others, returns the chatbot so changed, which get_chatbot returns
    from then on, and leaves the lookup of every other id as it was. *)
Theorem update_chatbot_by_owner :
  forall write chatbot_id chatbot_data current_user w chatbot,
    chatbot_by_id chatbot_id w = Some chatbot ->
    Chatbot.user_id chatbot = User.id current_user ->
    (sets_a_field chatbot_data = false ->
     update_chatbot write chatbot_id chatbot_data current_user w = (Ok chatbot, w)) /\
    (sets_a_field chatbot_data = true ->
     forall reason, write = Some reason ->
     update_chatbot write chatbot_id chatbot_data current_user w
       = (Raise (StorageError reason), w)) /\
    (sets_a_field chatbot_data = true ->
     write = None ->
     exists updated w',
       update_chatbot write chatbot_id chatbot_data current_user w = (Ok updated, w') /\
       get_chatbot chatbot_id w' = (Ok updated, w') /\
       Chatbot.name updated
         = or_keep (ChatbotUpdate.name chatbot_data) (Chatbot.name chatbot) /\
       Chatbot.description updated
         = or_keep (ChatbotUpdate.description chatbot_data) (Chatbot.description chatbot) /\
       Chatbot.introduction updated
         = or_keep (ChatbotUpdate.introduction chatbot_data) (Chatbot.introduction chatbot) /\
       Chatbot.is_censored updated
         = or_keep (ChatbotUpdate.is_censored chatbot_data) (Chatbot.is_censored chatbot) /\
       Chatbot.id updated = Chatbot.id chatbot /\
       Chatbot.user_id updated = Chatbot.user_id chatbot /\
       (forall other, other <> chatbot_id ->
                      chatbot_by_id other w' = chatbot_by_id other w)).
Proof.
  intros write key data u w c Hfind Howner.
  unfold update_chatbot, get_chatbot, bind, find_chatbot, update_one_chatbot, ret, raise.
  rewrite Hfind, Howner, String.eqb_refl. simpl.
  split; [|split].
  - intros ->. simpl. now rewrite Hfind.
  - intros -> reason ->. reflexivity.
  - intros -> ->. simpl. unfold chatbot_by_id in *. simpl.
    rewrite (find_update_one _ (set_fields data)), Hfind by reflexivity. simpl.
    do 2 eexists. split; [reflexivity|]. simpl.
    rewrite (find_update_one _ (set_fields data)), Hfind by reflexivity. simpl.
    split; [reflexivity|]. repeat (split; [reflexivity|]).
    split; [exact Howner|].
    intros other Hne. apply find_update_one_other; [reflexivity|].
    intros x. now apply other_key.
Qed.

Lemma update_chatbot_by_owner_witness :
  update_chatbot (Some "connection reset") "b-1" Demo.nothing Sample.ada Demo.busy
    = (Ok Sample.nova, Demo.busy) /\
  exists updated w',
    update_chatbot None "b-1" Demo.rename Sample.ada Demo.busy = (Ok updated, w') /\
    get_chatbot "b-1" w' = (Ok updated, w') /\
    Chatbot.name updated
      = or_keep (ChatbotUpdate.name Demo.rename) (Chatbot.name Sample.nova) /\
    Chatbot.description updated
      = or_keep (ChatbotUpdate.description Demo.rename) (Chatbot.description Sample.nova) /\
    Chatbot.introduction updated
      = or_keep (ChatbotUpdate.introduction Demo.rename) (Chatbot.introduction Sample.nova) /\
    Chatbot.is_censored updated
      = or_keep (ChatbotUpdate.is_censored Demo.rename) (Chatbot.is_censored Sample.nova) /\
    Chatbot.id updated = Chatbot.id Sample.nova /\
    Chatbot.user_id updated = Chatbot.user_id Sample.nova /\
    (forall other, other <> "b-1" ->
                   chatbot_by_id other w' = chatbot_by_id other Demo.busy).
Proof.
  split.
  - apply (proj1 (update_chatbot_by_owner (Some "connection reset") "b-1" Demo.nothing
                    Sample.ada Demo.busy Sample.nova eq_refl eq_refl)).
    reflexivity.
  - apply (proj2 (proj2 (update_chatbot_by_owner None "b-1" Demo.rename
                           Sample.ada Demo.busy Sample.nova eq_refl eq_refl)));
      reflexivity.
Defined.

(** X11: a caller who does not own the chatbot stored under an id can
    change nothing through update_chatbot or delete_chatbot: both refuse
    with 404 when there is no such chatbot and with 403 otherwise, and
    leave the state as it was. *)
Theorem only_owner_changes_chatbot :
  forall write chatbot_id chatbot_data current_user w,
    (forall chatbot, chatbot_by_id chatbot_id w = Some chatbot ->
                     Chatbot.user_id chatbot <> User.id current_user) ->
    snd (update_chatbot write chatbot_id chatbot_data current_user w) = w /\
    snd (delete_chatbot chatbot_id current_user w) = w /\
    (fst (update_chatbot write chatbot_id chatbot_data current_user w)
       = Raise (HTTPException 404 "Chatbot not found") /\
     fst (delete_chatbot chatbot_id current_user w)
       = Raise (HTTPException 404 "Chatbot not found") /\
     chatbot_by_id chatbot_id w = None
     \/
     fst (update_chatbot write chatbot_id chatbot_data current_user w)
       = Raise (HTTPException 403 "Not authorized to update this chatbot") /\
     fst (delete_chatbot chatbot_id current_user w)
       = Raise (HTTPException 403 "Not authorized to delete this chatbot") /\
     chatbot_by_id chatbot_id w <> None).
Proof.
  intros write key data u w Hother.
  unfold update_chatbot, delete_chatbot, bind, find_chatbot, raise.
  destruct (chatbot_by_id key w) as [c|]; simpl.
  - specialize (Hother c eq_refl). apply String.eqb_neq in Hother. rewrite Hother. simpl.
    repeat split. right. repeat split. discriminate.
  - repeat split. left. repeat split.
Qed.

Lemma only_owner_changes_chatbot_witness :
  snd (update_chatbot None "b-1" Demo.rename Sample.eve Demo.busy) = Demo.busy /\
  snd (delete_chatbot "b-1" Sample.eve Demo.busy) = Demo.busy /\
  (fst (update_chatbot None "b-1" Demo.rename Sample.eve Demo.busy)
     = Raise (HTTPException 404 "Chatbot not found") /\
   fst (delete_chatbot "b-1" Sample.eve Demo.busy)
     = Raise (HTTPException 404 "Chatbot not found") /\
   chatbot_by_id "b-1" Demo.busy = None
   \/
   fst (update_chatbot None "b-1" Demo.rename Sample.eve Demo.busy)
     = Raise (HTTPException 403 "Not authorized to update this chatbot") /\
   fst (delete_chatbot "b-1" Sample.eve Demo.busy)
     = Raise (HTTPException 403 "Not authorized to delete this chatbot") /\
   chatbot_by_id "b-1" Demo.busy <> None).
Proof.
  apply (only_owner_changes_chatbot None "b-1" Demo.rename Sample.eve Demo.busy).
  intros chatbot H. injection H as <-. discriminate.
Defined.

Lemma send_message_reaches_llm env conversation_id message_data current_user w
      conversation chatbot :
  conversation_by_id conversation_id w = Some conversation ->
  Conversation.user_id conversation = User.id current_user ->
  chatbot_by_id (Conversation.chatbot_id conversation) w = Some chatbot ->
  user_write env = None ->
  exists user_message rest,
    trace (snd (send_message env conversation_id message_data current_user w))
      = trace w ++
        EvInsertMessage user_message None
        :: EvLlmSend (system_message_of chatbot) conversation_id
                     (ChatMessage.message message_data)
                     (llm env (system_message_of chatbot) conversation_id
                          (ChatMessage.message message_data))
        :: rest.
Proof.
  intros Hconv Howner Hbot Hw. run_handler.
  rewrite Hconv, Howner, String.eqb_refl. simpl. rewrite Hbot, Hw. simpl.
  destruct (llm env _ _ _) as [response|reason]; simpl;
    [destruct (bot_write env); simpl|];
    destruct (fallback_write env); simpl;
    rewrite <- ?app_assoc; simpl; do 2 eexists; reflexivity.
Qed.

(** X12: the chatbot is read anew at every turn.  Once its owner has
    changed it, the next turn of any conversation with it, by that
    conversation's owner, sends the language model the system message of
    the chatbot as changed, not as it was when the conversation began. *)
Theorem update_chatbot_then_send_message :
  forall chatbot_id chatbot_data owner w chatbot
         env conversation_id message_data current_user conversation,
    chatbot_by_id chatbot_id w = Some chatbot ->
    Chatbot.user_id chatbot = User.id owner ->
    sets_a_field chatbot_data = true ->
    conversation_by_id conversation_id w = Some conversation ->
    Conversation.user_id conversation = User.id current_user ->
    Conversation.chatbot_id conversation = chatbot_id ->
    user_write env = None ->
    exists user_message rest,
      trace (snd (send_message env conversation_id message_data current_user
                    (snd (update_chatbot None chatbot_id chatbot_data owner w))))
        = trace w ++
          EvInsertMessage user_message None
          :: EvLlmSend (system_message_of (set_fields chatbot_data chatbot)) conversation_id
                       (ChatMessage.message message_data)
                       (llm env (system_message_of (set_fields chatbot_data chatbot))
                            conversation_id (ChatMessage.message message_data))
          :: rest.
Proof.
  intros key data owner w c env cid msg u conv Hfind Howner Hsets Hconv Hu Hkey Hw.
  assert (Hupd : snd (update_chatbot None key data owner w)
                 = set_chatbots (update_one (fun x => Chatbot.id x =? key) (set_fields data)
                                            (chatbots_collection w)) w).
  { unfold update_chatbot, bind, find_chatbot, update_one_chatbot, ret, raise.
    rewrite Hfind, Howner, String.eqb_refl, Hsets. simpl.
    unfold chatbot_by_id in *. simpl.
    now rewrite (find_update_one _ (set_fields data)), Hfind by reflexivity. }
  rewrite Hupd.
  destruct (send_message_reaches_llm env cid msg u
              (set_chatbots (update_one (fun x => Chatbot.id x =? key) (set_fields data)
                                        (chatbots_collection w)) w)
              conv (set_fields data c)) as (user_message & rest & Htrace); auto.
  - rewrite Hkey. unfold chatbot_by_id in *. simpl.
    now rewrite (find_update_one _ (set_fields data)), Hfind by reflexivity.
  - exists user_message, rest. exact Htrace.
Qed.

Lemma update_chatbot_then_send_message_witness :
  exists user_message rest,
    trace (snd (send_message Sample.healthy "c-2" Sample.hello Sample.eve
                  (snd (update_chatbot None "b-1" Demo.rename Sample.ada Demo.busy))))
      = trace Demo.busy ++
        EvInsertMessage user_message None
        :: EvLlmSend (system_message_of (set_fields Demo.rename Sample.nova)) "c-2"
                     (ChatMessage.message Sample.hello)
                     (llm Sample.healthy (system_message_of (set_fields Demo.rename Sample.nova))
                          "c-2" (ChatMessage.message Sample.hello))
        :: rest.
Proof.
  apply (update_chatbot_then_send_message "b-1" Demo.rename Sample.ada Demo.busy Sample.nova
           Sample.healthy "c-2" Sample.hello Sample.eve Demo.chat2); reflexivity.
Defined.

(** ** Deleting a chatbot, continued *)

Lemma find_delete_one_other {D} (p q : D -> bool) l :
  (forall x, p x = true -> q x = false) ->
  find q (delete_one p l) = find q l.
Proof.
  intros Hpq. induction l as [|x l IH]; simpl; [reflexivity|].
  destruct (p x) eqn:Hx; simpl.
  - now rewrite (Hpq x Hx).
  - now rewrite IH.
Qed.

Lemma find_absent {D} (key_of : D -> string) (key : string) l :
  ~ In key (map key_of l) -> find (fun x => key_of x =? key) l = None.
Proof.
  induction l as [|x l IH]; simpl; [reflexivity|]. intros Hnot.
  destruct (String.eqb_spec (key_of x) key) as [Heq|_].
  - elim Hnot. now left.
  - apply IH. intros Hin. apply Hnot. now right.
Qed.

Lemma find_delete_one_unique {D} (key_of : D -> string) (key : string) l :
  NoDup (map key_of l) ->
  find (fun x => key_of x =? key) (delete_one (fun x => key_of x =? key) l) = None.
Proof.
  induction l as [|x l IH]; simpl; [reflexivity|]. intros Hnd.
  inversion Hnd as [|? ? Hnot Hrest]; subst.
  destruct (String.eqb_spec (key_of x) key) as [Heq|Hne]; simpl.
  - apply find_absent. now rewrite <- Heq.
  - destruct (String.eqb_spec (key_of x) key) as [Heq|_]; [contradiction|]. now apply IH.
Qed.

Lemma find_filter_unique {D} (key_of : D -> string) (keep : D -> bool) (key : string) l x :
  NoDup (map key_of l) ->
  find (fun y => key_of y =? key) l = Some x ->
  keep x = false ->
  find (fun y => key_of y =? key) (filter keep l) = None.
Proof.
  induction l as [|y l IH]; simpl; [discriminate|]. intros Hnd Hfind Hkeep.
  inversion Hnd as [|? ? Hnot Hrest]; subst.
  destruct (String.eqb_spec (key_of y) key) as [Heq|Hne].
  - injection Hfind as ->. rewrite Hkeep.
    apply find_absent. intros Hin. apply Hnot. rewrite Heq.
    apply in_map_iff in Hin as (z & Hz & Hin). apply in_map_iff. exists z.
    split; [exact Hz|]. now apply filter_In in Hin.
  - destruct (keep y); simpl.
    + destruct (String.eqb_spec (key_of y) key) as [Heq|_]; [contradiction|]. now apply IH.
    + now apply IH.
Qed.

(** X13: what the owner's delete_chatbot does: it removes the chatbot
    (the one the lookup finds) and every conversation held with that
    chatbot id, keeps all other conversations, the lookup of every other
    chatbot id and all messages; when the stored chatbot ids are distinct,
    the id can no longer be looked up. *)
Theorem delete_chatbot_by_owner :
  forall chatbot_id current_user w chatbot,
    chatbot_by_id chatbot_id w = Some chatbot ->
    Chatbot.user_id chatbot = User.id current_user ->
    exists w',
      delete_chatbot chatbot_id current_user w = (Ok "Chatbot deleted successfully", w') /\
      length (chatbots_collection w) = S (length (chatbots_collection w')) /\
      (forall other, other <> chatbot_id ->
                     chatbot_by_id other w' = chatbot_by_id other w) /\
      (NoDup (map Chatbot.id (chatbots_collection w)) ->
       get_chatbot chatbot_id w' = (Raise (HTTPException 404 "Chatbot not found"), w')) /\
      (forall c, In c (conversations_collection w') <->
                 In c (conversations_collection w) /\
                 Conversation.chatbot_id c <> chatbot_id) /\
      messages_collection w' = messages_collection w.
Proof.
  intros key u w c Hfind Howner.
  unfold delete_chatbot, get_chatbot, bind, find_chatbot, ret, raise.
  rewrite Hfind, Howner, String.eqb_refl. simpl.
  eexists. split; [reflexivity|]. simpl. unfold chatbot_by_id in *. simpl.
  split; [|split; [|split; [|split]]].
  - clear Howner. revert Hfind. induction (chatbots_collection w) as [|x l IH]; simpl;
      [discriminate|].
    destruct (Chatbot.id x =? key); [reflexivity|]. intros Hfind. simpl.
    now rewrite (IH Hfind).
  - intros other Hne. apply find_delete_one_other. intros x. now apply other_key.
  - intros Hnd. now rewrite (find_delete_one_unique Chatbot.id key _ Hnd).
  - intros cv. unfold delete_many. rewrite filter_In. split.
    + intros [Hin Hk]. split; [exact Hin|].
      apply negb_true_iff in Hk. now apply String.eqb_neq in Hk.
    + intros [Hin Hk]. split; [exact Hin|].
      apply negb_true_iff. now apply String.eqb_neq.
  - apply (delete_many_nothing (messages_collection w)).
Qed.

Lemma delete_chatbot_by_owner_witness :
  exists w',
    delete_chatbot "b-1" Sample.ada Demo.busy = (Ok "Chatbot deleted successfully", w') /\
    length (chatbots_collection Demo.busy) = S (length (chatbots_collection w')) /\
    (forall other, other <> "b-1" ->
                   chatbot_by_id other w' = chatbot_by_id other Demo.busy) /\
    (NoDup (map Chatbot.id (chatbots_collection Demo.busy)) ->
     get_chatbot "b-1" w' = (Raise (HTTPException 404 "Chatbot not found"), w')) /\
    (forall c, In c (conversations_collection w') <->
               In c (conversations_collection Demo.busy) /\
               Conversation.chatbot_id c <> "b-1") /\
    messages_collection w' = messages_collection Demo.busy.
Proof.
  apply (delete_chatbot_by_owner "b-1" Sample.ada Demo.busy Sample.nova); reflexivity.
Defined.

(** X14: once a chatbot is deleted, a conversation that was held with it
    (conversation ids being distinct) is gone for every caller: sending
    to it and reading it both answer 404 "Conversation not found", while
    its messages are all still stored. *)
Theorem delete_chatbot_then_conversation :
  forall chatbot_id owner w chatbot conversation_id conversation,
    chatbot_by_id chatbot_id w = Some chatbot ->
    Chatbot.user_id chatbot = User.id owner ->
    NoDup (map Conversation.id (conversations_collection w)) ->
    conversation_by_id conversation_id w = Some conversation ->
    Conversation.chatbot_id conversation = chatbot_id ->
    forall env message_data current_user,
      send_message env conversation_id message_data current_user
                   (snd (delete_chatbot chatbot_id owner w))
        = (Raise (HTTPException 404 "Conversation not found"),
           snd (delete_chatbot chatbot_id owner w)) /\
      get_conversation_messages conversation_id current_user
                                (snd (delete_chatbot chatbot_id owner w))
        = (Raise (HTTPException 404 "Conversation not found"),
           snd (delete_chatbot chatbot_id owner w)) /\
      find_messages conversation_id
                    (messages_collection (snd (delete_chatbot chatbot_id owner w)))
        = find_messages conversation_id (messages_collection w).
Proof.
  intros key owner w c cid conv Hfind Howner Hnd Hconv Hkey env data u.
  assert (Hgone : conversation_by_id cid (snd (delete_chatbot key owner w)) = None).
  { unfold delete_chatbot, bind, find_chatbot, ret, raise.
    rewrite Hfind, Howner, String.eqb_refl. simpl.
    unfold conversation_by_id in *. simpl. unfold delete_many.
    apply (find_filter_unique Conversation.id _ cid _ conv Hnd Hconv).
    rewrite Hkey. now rewrite String.eqb_refl. }
  split; [|split].
  - unfold send_message, bind, find_conversation, raise. now rewrite Hgone.
  - unfold get_conversation_messages, bind, find_conversation, raise. now rewrite Hgone.
  - now rewrite delete_chatbot_keeps_messages.
Qed.

Lemma delete_chatbot_then_conversation_witness :
  send_message Sample.healthy "c-2" Sample.hello Sample.eve
               (snd (delete_chatbot "b-1" Sample.ada Demo.busy))
    = (Raise (HTTPException 404 "Conversation not found"),
       snd (delete_chatbot "b-1" Sample.ada Demo.busy)) /\
  get_conversation_messages "c-2" Sample.eve (snd (delete_chatbot "b-1" Sample.ada Demo.busy))
    = (Raise (HTTPException 404 "Conversation not found"),
       snd (delete_chatbot "b-1" Sample.ada Demo.busy)) /\
  find_messages "c-2" (messages_collection (snd (delete_chatbot "b-1" Sample.ada Demo.busy)))
    = find_messages "c-2" (messages_collection Demo.busy).
Proof.
  apply (delete_chatbot_then_conversation "b-1" Sample.ada Demo.busy Sample.nova "c-2"
           Demo.chat2); try reflexivity.
  repeat constructor; simpl; intuition discriminate.
Defined.

(** ** Conversations *)

(** X15: any user may start a conversation with any stored chatbot,
    their own or not.  Under an id no stored conversation has, and with
    the write accepted, the conversation can be looked up by that id
    afterwards, belongs to the caller, refers to the chatbot, is listed
    by the caller's get_user_conversations, and every conversation that
    could be looked up before still can; chatbots and messages are not
    touched. *)
Theorem start_conversation_round_trip :
  forall out chatbot_id current_user w chatbot,
    chatbot_by_id chatbot_id w = Some chatbot ->
    out_write out = None ->
    conversation_by_id (out_uuid out) w = None ->
    exists conversation w',
      start_conversation out chatbot_id current_user w = (Ok conversation, w') /\
      conversation_by_id (out_uuid out) w' = Some conversation /\
      Conversation.user_id conversation = User.id current_user /\
      Conversation.chatbot_id conversation = chatbot_id /\
      (exists mine, get_user_conversations current_user w' = (Ok mine, w') /\
                    In conversation mine) /\
      (forall key other, conversation_by_id key w = Some other ->
                         conversation_by_id key w' = Some other) /\
      chatbots_collection w' = chatbots_collection w /\
      messages_collection w' = messages_collection w.
Proof.
  intros out key u w cb Hbot Hw Hfresh.
  unfold start_conversation, bind, find_chatbot, utcnow, insert_conversation, ret, raise.
  rewrite Hbot, Hw. simpl. do 2 eexists. split; [reflexivity|].
  unfold conversation_by_id in *. simpl.
  rewrite find_snoc, Hfresh. simpl. rewrite String.eqb_refl.
  repeat (split; [reflexivity|]). split; [|split; [|split; reflexivity]].
  - eexists. split; [reflexivity|]. simpl.
    apply (Permutation_in _ (proj1 (sort_desc_is_sort _ _))).
    apply filter_In. split; [|simpl; apply String.eqb_refl].
    apply in_app_iff. right. now left.
  - intros k other Hfind. now rewrite find_snoc, Hfind.
Qed.

Lemma start_conversation_round_trip_witness :
  exists conversation w',
    start_conversation Demo.arrives "b-2" Sample.ada Demo.busy = (Ok conversation, w') /\
    conversation_by_id (out_uuid Demo.arrives) w' = Some conversation /\
    Conversation.user_id conversation = User.id Sample.ada /\
    Conversation.chatbot_id conversation = "b-2" /\
    (exists mine, get_user_conversations Sample.ada w' = (Ok mine, w') /\
                  In conversation mine) /\
    (forall key other, conversation_by_id key Demo.busy = Some other ->
                       conversation_by_id key w' = Some other) /\
    chatbots_collection w' = chatbots_collection Demo.busy /\
    messages_collection w' = messages_collection Demo.busy.
Proof.
  apply (start_conversation_round_trip Demo.arrives "b-2" Sample.ada Demo.busy Demo.sage);
    reflexivity.
Defined.

Lemma start_conversation_state out chatbot_id current_user w chatbot :
  chatbot_by_id chatbot_id w = Some chatbot ->
  out_write out = None ->
  snd (start_conversation out chatbot_id current_user w)
  = mkWorld (chatbots_collection w)
            (conversations_collection w
               ++ [Conversation.mk (out_uuid out) (User.id current_user) chatbot_id
                                   (clock w + Z.of_nat (out_wait out))%Z])
            (messages_collection w)
            (clock w + Z.of_nat (out_wait out))%Z
            (trace w).
Proof.
  intros Hbot Hw.
  unfold start_conversation, bind, find_chatbot, utcnow, insert_conversation, ret, raise.
  now rewrite Hbot, Hw.
Qed.

(** X16: right after start_conversation (under an id that no stored
    conversation and no stored message refers to) the conversation is
    the starter's alone: the starter reads an empty transcript, and any
    caller with another id is refused with 403, for reading and for
    sending, without any change. *)
Theorem start_conversation_then_access :
  forall out chatbot_id starter w chatbot,
    chatbot_by_id chatbot_id w = Some chatbot ->
    out_write out = None ->
    conversation_by_id (out_uuid out) w = None ->
    find_messages (out_uuid out) (messages_collection w) = [] ->
    get_conversation_messages (out_uuid out) starter
                              (snd (start_conversation out chatbot_id starter w))
      = (Ok [], snd (start_conversation out chatbot_id starter w)) /\
    forall env message_data intruder,
      User.id intruder <> User.id starter ->
      send_message env (out_uuid out) message_data intruder
                   (snd (start_conversation out chatbot_id starter w))
        = (Raise (HTTPException 403 "Not authorized"),
           snd (start_conversation out chatbot_id starter w)) /\
      get_conversation_messages (out_uuid out) intruder
                                (snd (start_conversation out chatbot_id starter w))
        = (Raise (HTTPException 403 "Not authorized"),
           snd (start_conversation out chatbot_id starter w)).
Proof.
  intros out key u w cb Hbot Hw Hfresh Hempty.
  rewrite (start_conversation_state out key u w cb Hbot Hw).
  unfold send_message, get_conversation_messages, bind, find_conversation, raise,
    conversation_by_id in *.
  simpl. rewrite find_snoc, Hfresh. simpl. rewrite !String.eqb_refl. simpl.
  rewrite Hempty. split; [reflexivity|].
  intros env data intruder Hne.
  assert (Hneq : (User.id u =? User.id intruder) = false)
    by (apply String.eqb_neq; congruence).
  now rewrite Hneq.
Qed.

Lemma start_conversation_then_access_witness :
  get_conversation_messages (out_uuid Demo.arrives) Sample.ada
                            (snd (start_conversation Demo.arrives "b-2" Sample.ada Demo.busy))
    = (Ok [], snd (start_conversation Demo.arrives "b-2" Sample.ada Demo.busy)) /\
  forall env message_data intruder,
    User.id intruder <> User.id Sample.ada ->
    send_message env (out_uuid Demo.arrives) message_data intruder
                 (snd (start_conversation Demo.arrives "b-2" Sample.ada Demo.busy))
      = (Raise (HTTPException 403 "Not authorized"),
         snd (start_conversation Demo.arrives "b-2" Sample.ada Demo.busy)) /\
    get_conversation_messages (out_uuid Demo.arrives) intruder
                              (snd (start_conversation Demo.arrives "b-2" Sample.ada Demo.busy))
      = (Raise (HTTPException 403 "Not authorized"),
         snd (start_conversation Demo.arrives "b-2" Sample.ada Demo.busy)).
Proof.
  apply (start_conversation_then_access Demo.arrives "b-2" Sample.ada Demo.busy Demo.sage);
    reflexivity.
Defined.

(** X17: get_user_conversations changes nothing and returns exactly the
    stored conversations whose user_id is the caller's id, newest first. *)
Theorem get_user_conversations_listing :
  forall current_user w,
  exists mine,
    get_user_conversations current_user w = (Ok mine, w) /\
    StronglySorted (newer_first Conversation.created_at) mine /\
    length mine
      = length (filter (fun c => Conversation.user_id c =? User.id current_user)
                       (conversations_collection w)) /\
    (forall c, In c mine <->
               In c (conversations_collection w) /\
               Conversation.user_id c = User.id current_user).
Proof.
  intros u w. eexists. split; [reflexivity|].
  destruct (sort_desc_is_sort Conversation.created_at
              (filter (fun c => Conversation.user_id c =? User.id u)
                      (conversations_collection w)))
    as [Hperm Hsorted].
  split; [exact Hsorted|]. split; [symmetry; now apply Permutation_length|].
  intros c. split.
  - intros Hin. apply (Permutation_in _ (Permutation_sym Hperm)) in Hin.
    apply filter_In in Hin as [Hin Heq]. now apply String.eqb_eq in Heq.
  - intros [Hin Heq]. apply (Permutation_in _ Hperm), filter_In.
    split; [exact Hin | now apply String.eqb_eq].
Qed.

(** ** Accounts *)





(** X19: login never changes the stored users.  It succeeds only for a
    stored user whose hash verifies against the given password, and then
    names that user; every failure is the same 401 "Invalid credentials",
    for an unknown name as for a wrong password, and leaves even the
    clock as it was. *)
Theorem login_outcomes :
  forall lib token_wait user_data a,
    users_collection (snd (login lib token_wait user_data a)) = users_collection a /\
    (forall e, fst (login lib token_wait user_data a) = Raise e ->
               e = HTTPException 401 "Invalid credentials" /\
               snd (login lib token_wait user_data a) = a) /\
    (forall session,
        fst (login lib token_wait user_data a) = Ok session ->
        exists user,
          user_by_username (Credentials.username user_data) a = Some user /\
          In user (users_collection a) /\
          bcrypt_verify lib (Credentials.password user_data) (UserDoc.password_hash user)
            = true /\
          Session.user_id session = UserDoc.id user /\
          Session.user_username session = UserDoc.username user /\
          Session.token_type session = "bearer").
Proof.
  intros lib tw data a. unfold login, create_access_token.
  destruct (user_by_username (Credentials.username data) a) as [user|] eqn:Hfind; simpl.
  - destruct (bcrypt_verify lib _ _) eqn:Hv; simpl.
    + split; [reflexivity|]. split; [discriminate|].
      intros session H. injection H as <-. exists user.
      split; [reflexivity|].
      split; [unfold user_by_username in Hfind; now apply find_some in Hfind|].
      split; [exact Hv|]. repeat split.
    + split; [reflexivity|]. split; [|discriminate].
      intros e H. injection H as <-. now split.
  - split; [reflexivity|]. split; [|discriminate].
    intros e H. injection H as <-. now split.
Qed.

Lemma login_outcomes_witness :
  exists user,
    user_by_username "ada" Demo.registry = Some user /\
    In user (users_collection Demo.registry) /\
    bcrypt_verify Demo.toy "lovelace" (UserDoc.password_hash user) = true /\
    Session.user_id (Session.mk "ada" "bearer" "u-1" "ada") = UserDoc.id user /\
    Session.user_username (Session.mk "ada" "bearer" "u-1" "ada") = UserDoc.username user /\
    Session.token_type (Session.mk "ada" "bearer" "u-1" "ada") = "bearer".
Proof.
  apply (proj2 (proj2 (login_outcomes Demo.toy 3 (Credentials.mk "ada" "lovelace")
                         Demo.registry))).
  reflexivity.
Defined.

(** X20: with a hash library whose verify accepts every password against
    its own hash, a user who has just registered can log in with the
    same name and password, and is given the same user id. *)
Theorem register_then_login :
  forall lib env token_wait user_data a session a',
    (forall salt password,
        bcrypt_verify lib password (bcrypt_hash lib salt password) = true) ->
    register lib env user_data a = (Ok session, a') ->
    exists session' a'',
      login lib token_wait user_data a' = (Ok session', a'') /\
      Session.user_id session' = Session.user_id session /\
      Session.user_username session' = Credentials.username user_data /\
      users_collection a'' = users_collection a'.
Proof.
  intros lib env tw data a session a' Hverify. unfold register, create_access_token.
  destruct (user_by_username (Credentials.username data) a) eqn:Hfind; [discriminate|].
  destruct (signup_write env); [discriminate|]. simpl.
  intros H. injection H as <- <-.
  unfold login, create_access_token, user_by_username in *. simpl.
  rewrite find_snoc, Hfind. simpl. rewrite String.eqb_refl. simpl.
  rewrite Hverify. simpl. do 2 eexists. repeat split.
Qed.

Lemma register_then_login_witness :
  exists session' a'',
    login Demo.toy 4 Demo.bob (snd (register Demo.toy Demo.signup Demo.bob Demo.registry))
      = (Ok session', a'') /\
    Session.user_id session' = Session.user_id (Session.mk "bob" "bearer" "u-3" "bob") /\
    Session.user_username session' = Credentials.username Demo.bob /\
    users_collection a''
      = users_collection (snd (register Demo.toy Demo.signup Demo.bob Demo.registry)).
Proof.
  apply (register_then_login Demo.toy Demo.signup 4 Demo.bob Demo.registry
           (Session.mk "bob" "bearer" "u-3" "bob")).
  - intros salt password. apply String.eqb_refl.
  - reflexivity.
Defined.



(** A token given the expiry 2.999999 s is accepted at 1.999999 s and
    refused at 2 s. *)
Lemma whole_seconds_last_second :
  jwt_decode Demo.whole_seconds 1999999%Z
             (jwt_encode Demo.whole_seconds (mkPayload (Some "bob") 2999999%Z))
    = Some (mkPayload (Some "bob") 2000000%Z) /\
  jwt_decode Demo.whole_seconds 2000000%Z
             (jwt_encode Demo.whole_seconds (mkPayload (Some "bob") 2999999%Z))
    = None.
Proof. split; reflexivity. Qed.



(** X22: get_current_user never changes the stored users and vouches
    only for what is stored: the user it returns carries the id, name
    and creation time of a stored user whose name is the subject of a
    token the library accepts at that moment; and whatever goes wrong,
    the caller gets a 401. *)
Theorem get_current_user_sound :
  forall lib elapsed credentials a,
    users_collection (snd (get_current_user lib elapsed credentials a))
      = users_collection a /\
    (forall e, fst (get_current_user lib elapsed credentials a) = Raise e ->
               exists detail, e = HTTPException 401 detail) /\
    (forall user,
        fst (get_current_user lib elapsed credentials a) = Ok user ->
        exists payload stored,
          jwt_decode lib (wall_clock a + Z.of_nat elapsed)%Z credentials = Some payload /\
          sub payload = Some (User.username user) /\
          In stored (users_collection a) /\
          UserDoc.id stored = User.id user /\
          UserDoc.username stored = User.username user /\
          UserDoc.created_at stored = User.created_at user).
Proof.
  intros lib elapsed token a. unfold get_current_user.
  destruct (jwt_decode lib _ token) as [payload|] eqn:Hdec; simpl.
  - destruct (sub payload) as [name|] eqn:Hsub; simpl.
    + destruct (user_by_username name _) as [stored|] eqn:Hfind; simpl.
      * split; [reflexivity|]. split; [discriminate|].
        intros user H. injection H as <-. exists payload, stored.
        unfold user_by_username in Hfind. simpl in Hfind.
        pose proof (find_some _ _ Hfind) as [Hin Heq]. apply String.eqb_eq in Heq.
        simpl. rewrite Heq. repeat split; assumption.
      * split; [reflexivity|]. split; [|discriminate].
        intros e H. injection H as <-. now eexists.
    + split; [reflexivity|]. split; [|discriminate].
      intros e H. injection H as <-. now eexists.
  - split; [reflexivity|]. split; [|discriminate].
    intros e H. injection H as <-. now eexists.
Qed.

Lemma get_current_user_sound_witness :
  exists payload stored,
    jwt_decode Demo.toy (wall_clock Demo.registry + Z.of_nat 5)%Z "eve" = Some payload /\
    sub payload = Some (User.username (User.mk "u-2" "eve" 1%Z)) /\
    In stored (users_collection Demo.registry) /\
    UserDoc.id stored = User.id (User.mk "u-2" "eve" 1%Z) /\
    UserDoc.username stored = User.username (User.mk "u-2" "eve" 1%Z) /\
    UserDoc.created_at stored = User.created_at (User.mk "u-2" "eve" 1%Z).
Proof.
  apply (proj2 (proj2 (get_current_user_sound Demo.toy 5 "eve" Demo.registry))).
  reflexivity.
Defined.

(** ** The order of a transcript *)








Lemma send_message_calls_llm_once_witness :
  In (EvLlmSend (system_message_of Sample.nova) "c-1" "Hello" (inl "Hi there"))
     (trace (snd (send_message Sample.healthy "c-1" Sample.hello Sample.ada Sample.fresh))).
Proof.
  destruct (send_message_calls_llm_once Sample.healthy "c-1" Sample.hello Sample.ada
              Sample.fresh) as (events & Htrace & _ & _ & Hcalled).
  rewrite Htrace. apply in_or_app. right.
  exact (Hcalled Sample.chat Sample.nova eq_refl eq_refl eq_refl eq_refl).
Defined.
